(** * PocketUniverse: the injected provider proxy and the simulation store

    A shallow embedding of two source files of the extension:

    - [src/lib/storage.ts]: the persisted sequence of [StoredSimulation]
      entries and the settings document, both kept in [chrome.storage.sync];
    - the injected page script: the [Proxy] handler wrapped around the wallet
      provider and the [window.ethereum] accessor pair that caches it.

    Asynchronous functions are embedded as computations in a state and
    exception monad: a rejected promise is a thrown exception, an awaited
    promise is the value it resolves to.  One invocation is modelled at a
    time; interleaving of several invocations at their suspension points is
    outside the model. *)

From Stdlib Require Import String Ascii List ZArith Bool Lia DecimalString.
Import ListNotations.
Local Open Scope string_scope.
Set Warnings "-register-all".

(* ================================================================== *)
(** ** JavaScript values, exceptions and outcomes *)

Module Js.

(** Values of type [any] that the page hands to the provider.  Numbers are
    the integer-valued ones; a string is a sequence of code units. *)
Inductive Value : Type :=
| VUndefined
| VNull
| VBool (b : bool)
| VNum (z : Z)
| VStr (s : string)
| VArr (items : list Value)
| VObj (fields : list (string * Value)).

(** What a [throw] or a rejected promise carries. *)
Inductive Exn : Type :=
| TypeError                                   (* property read of undefined/null, call of a non-function, ... *)
| SyntaxError                                 (* JSON.parse *)
| Error (msg : string)                        (* new Error(msg) *)
| ProviderError (code : Z) (msg : string)     (* eth-rpc-errors: EthereumProviderError *)
| StorageFailure                              (* a chrome.storage.sync call that rejects *)
| Rejection (reason : Value).                 (* anything an external collaborator throws *)

Inductive Outcome (A : Type) : Type :=
| Returned (a : A)
| Thrown (e : Exn).
Arguments Returned {A} a.
Arguments Thrown {A} e.

(** Computations over a state [S]: the state survives an exception. *)
Definition M (S A : Type) : Type := S -> Outcome A * S.

Definition ret {S A} (a : A) : M S A := fun s => (Returned a, s).

Definition throw {S A} (e : Exn) : M S A := fun s => (Thrown e, s).

Definition bind {S A B} (m : M S A) (k : A -> M S B) : M S B :=
  fun s =>
    match m s with
    | (Returned a, s') => k a s'
    | (Thrown e, s') => (Thrown e, s')
    end.

(** An already settled outcome, e.g. the answer of an external call. *)
Definition settle {S A} (o : Outcome A) : M S A := fun s => (o, s).

Definition modify {S} (f : S -> S) : M S unit := fun s => (Returned tt, f s).

Definition gets {S A} (f : S -> A) : M S A := fun s => (Returned (f s), s).

(** Property keys: a name ([v.name], [v['name']]) or an index ([v[0]]). *)
Inductive Key : Type :=
| KName (name : string)
| KIndex (i : nat).

Definition key_string (k : Key) : string :=
  match k with
  | KName n => n
  | KIndex i => NilZero.string_of_uint (Nat.to_uint i)
  end.

Fixpoint lookup (k : string) (fields : list (string * Value)) : Value :=
  match fields with
  | [] => VUndefined
  | (k', v) :: rest => if String.eqb k' k then v else lookup k rest
  end.

Definition char_at (s : string) (i : nat) : Value :=
  match String.get i s with
  | Some c => VStr (String c EmptyString)
  | None => VUndefined
  end.

(** [v[k]]: reading a property of [undefined] or [null] throws; a missing
    property reads as [undefined].  Own properties only (arrays and strings
    have [length] and their indices); the names the program reads are
    [method], [params], [length], [domain], [message], [primaryType] and
    the indices 0 and 1, none of which is inherited from a prototype. *)
Definition get (v : Value) (k : Key) : Outcome Value :=
  match v with
  | VUndefined | VNull => Thrown TypeError
  | VBool _ | VNum _ => Returned VUndefined
  | VStr s =>
      match k with
      | KIndex i => Returned (char_at s i)
      | KName n =>
          if String.eqb n "length" then Returned (VNum (Z.of_nat (String.length s)))
          else Returned VUndefined
      end
  | VArr items =>
      match k with
      | KIndex i => Returned (nth i items VUndefined)
      | KName n =>
          if String.eqb n "length" then Returned (VNum (Z.of_nat (List.length items)))
          else Returned VUndefined
      end
  | VObj fields => Returned (lookup (key_string k) fields)
  end.

(** [args[0]] on the rest-parameter array of a call. *)
Definition arg0 (args : list Value) : Value := nth 0 args VUndefined.

(** [v === 'literal'] and [v === n] for a string and a number literal. *)
Definition is_str (v : Value) (lit : string) : bool :=
  match v with
  | VStr s => String.eqb s lit
  | _ => false
  end.

Definition is_num (v : Value) (lit : Z) : bool :=
  match v with
  | VNum z => Z.eqb z lit
  | _ => false
  end.

(** Whether a value may be the target of [new Proxy(target, handler)]. *)
Definition is_object (v : Value) : bool :=
  match v with
  | VArr _ | VObj _ => true
  | _ => false
  end.

End Js.

Export Js(Outcome, Returned, Thrown).

Declare Scope js_scope.
Delimit Scope js_scope with js.
Notation "x <- m ;; k" := (Js.bind m (fun x => k))
  (at level 100, m at next level, right associativity) : js_scope.
Notation "m ;;; k" := (Js.bind m (fun _ => k))
  (at level 100, right associativity) : js_scope.

(* ================================================================== *)
(** ** [lib/models]: the backend's response *)

Module Models.

(** Modelled from the spec: the declaration of [ResponseType] is not among
    the sources.  The store tests the kinds [Success], [Revert] and
    [Error]; the backend interface of the spec lists a fourth, [Veto]. *)
Inductive ResponseType : Type :=
| Success
| Revert
| Error
| Veto.

Section WithSimulation.
(** The simulated effects: an opaque payload of the backend. *)
Variable Simulation : Type.

Record Response : Type := {
  type : ResponseType;
  simulation : option Simulation;    (* simulation?: Simulation *)
  error : option string;             (* error?: string *)
}.
End WithSimulation.

Arguments type {Simulation} r.
Arguments simulation {Simulation} r.
Arguments error {Simulation} r.

End Models.

(* ================================================================== *)
(** ** [lib/request]: what the page script submits, and the decision *)

Module Request.

(** Modelled from the spec: the declaration of the enum is not among the
    sources.  The decision the request manager hands back to the page
    script, one of the three the wrapper tests. *)
Inductive Response : Type :=
| Reject
| Continue
| Error.

(** Modelled from the spec: the declaration of the request type is not
    among the sources.  The two shapes the wrapper submits:
    [{chainId, transaction}] and [{chainId, domain, message, primaryType}]. *)
Inductive Body : Type :=
| Transaction (chainId transaction : Js.Value)
| Signature (chainId domain message primaryType : Js.Value).

(** [RequestArgs]: a submission tagged with the id of its dispatch. *)
Record RequestArgs : Type := {
  id : string;
  body : Body;
}.

(** ['transaction' in args] *)
Definition has_transaction (args : RequestArgs) : bool :=
  match body args with
  | Transaction _ _ => true
  | Signature _ _ _ _ => false
  end.

End Request.

(* ================================================================== *)
(** ** [lib/storage.ts] *)

Module Storage.

Inductive StoredSimulationState : Type :=
| Simulating      (* Currently in the process of simulating. *)
| Revert          (* Reverted or invalid signature processing. *)
| Error           (* Error *)
| Success         (* Successful simulation *)
| Rejected        (* User has rejected. *)
| Confirmed.      (* User has requested we keep going. *)

Inductive StoredType : Type :=
| Simulation
| Signature.

Record Settings : Type := {
  disable : bool;    (* Whether or not we should disable the extension. *)
}.

Section WithSimulation.
Variable Sim : Type.

Record StoredSimulation : Type := {
  id : string;
  type : StoredType;
  state : StoredSimulationState;
  simulation : option Sim;      (* Simulation set on success. *)
  error : option string;        (* Optional error message on Error *)
}.

(** The part of the [chrome] API the module touches.  [simulations] and
    [settings] are the two documents of [chrome.storage.sync], [None]
    when the key was never written.  [faults] plans the outcome of the
    coming [chrome.storage.sync] calls, one entry per call, [true] for a
    call that rejects; calls beyond the plan succeed.  [action] is
    [None] where [chrome.action] is undefined (content scripts), else
    the path of the icon set last. *)
Record Chrome : Type := {
  simulations : option (list StoredSimulation);
  settings : option Settings;
  faults : list bool;
  action : option string;
}.

Definition with_simulations (v : list StoredSimulation) (c : Chrome) : Chrome :=
  {| simulations := Some v; settings := settings c;
     faults := faults c; action := action c |}.

Definition with_settings (v : Settings) (c : Chrome) : Chrome :=
  {| simulations := simulations c; settings := Some v;
     faults := faults c; action := action c |}.

Definition with_faults (f : list bool) (c : Chrome) : Chrome :=
  {| simulations := simulations c; settings := settings c;
     faults := f; action := action c |}.

Definition with_icon (path : string) (c : Chrome) : Chrome :=
  {| simulations := simulations c; settings := settings c;
     faults := faults c; action := Some path |}.

(** One [chrome.storage.sync] round trip: takes the next planned outcome. *)
Definition sync_call : Js.M Chrome unit :=
  fun c =>
    match faults c with
    | [] => (Returned tt, c)
    | false :: plan => (Returned tt, with_faults plan c)
    | true :: plan => (Thrown Js.StorageFailure, with_faults plan c)
    end.

(** [const { simulations = [] } = await chrome.storage.sync.get(STORAGE_KEY)] *)
Definition get_simulations : Js.M Chrome (list StoredSimulation) :=
  (sync_call ;;;
   Js.gets (fun c => match simulations c with Some v => v | None => [] end))%js.

(** [chrome.storage.sync.set({ simulations })] *)
Definition set_simulations (v : list StoredSimulation) : Js.M Chrome unit :=
  (sync_call ;;; Js.modify (with_simulations v))%js.

(** [const { settings = { disable: false } } = await chrome.storage.sync.get(SETTINGS_KEY)] *)
Definition get_settings : Js.M Chrome Settings :=
  (sync_call ;;;
   Js.gets (fun c => match settings c with
                     | Some v => v
                     | None => {| disable := false |}
                     end))%js.

(** [chrome.storage.sync.set({ settings })] *)
Definition set_settings (v : Settings) : Js.M Chrome unit :=
  (sync_call ;;; Js.modify (with_settings v))%js.

Definition addSimulation (simulation : StoredSimulation) : Js.M Chrome unit :=
  (simulations <- get_simulations ;;
   set_simulations (simulations ++ [simulation]))%js.

(** The callbacks of [forEach] and [map], one entry at a time. *)
Definition complete_entry (id0 : string) (sim : Sim) (x : StoredSimulation)
  : StoredSimulation :=
  if String.eqb (id x) id0
  then {| id := id x; type := type x; state := Success;
          simulation := Some sim; error := error x |}
  else x.

Definition revert_entry (id0 : string) (err : option string) (x : StoredSimulation)
  : StoredSimulation :=
  if String.eqb (id x) id0
  then {| id := id x; type := type x; state := Revert;
          simulation := simulation x; error := err |}
  else x.

Definition state_entry (id0 : string) (st : StoredSimulationState)
           (x : StoredSimulation) : StoredSimulation :=
  if String.eqb (id x) id0
  then {| id := id x; type := type x; state := st;
          simulation := simulation x; error := error x |}
  else x.

Definition error_entry (id0 : string) (err : option string) (x : StoredSimulation)
  : StoredSimulation :=
  if String.eqb (id x) id0
  then {| id := id x; type := type x; state := Error;
          simulation := simulation x; error := err |}
  else x.

Definition completeSimulation (id0 : string) (sim : Sim) : Js.M Chrome unit :=
  (simulations <- get_simulations ;;
   set_simulations (map (complete_entry id0 sim) simulations))%js.

Definition revertSimulation (id0 : string) (err : option string) : Js.M Chrome unit :=
  (simulations <- get_simulations ;;
   set_simulations (map (revert_entry id0 err) simulations))%js.

Definition removeSimulation (id0 : string) : Js.M Chrome unit :=
  (simulations <- get_simulations ;;
   set_simulations
     (filter (fun x => negb (String.eqb (id x) id0)) simulations))%js.

Definition updateSimulationState (id0 : string) (st : StoredSimulationState)
  : Js.M Chrome unit :=
  (simulations <- get_simulations ;;
   set_simulations (map (state_entry id0 st) simulations))%js.

Definition updateSimulatioWithErrorMsg (id0 : string) (err : option string)
  : Js.M Chrome unit :=
  (simulations <- get_simulations ;;
   set_simulations (map (error_entry id0 err) simulations))%js.

(** [Promise.all([addSimulation(entry), fetch(args)])], then [result[1]].
    [backend] is what the backend call settles to.  Both are started; the
    store write runs to its end whatever the backend does.  When both
    reject, the code reports the one that rejects first; the model reports
    the rejection of the store write, and what is stated of a rejecting
    store call is stated for a backend that answers. *)
Definition add_and_fetch (entry : StoredSimulation)
           (backend : Outcome (Models.Response Sim))
  : Js.M Chrome (Models.Response Sim) :=
  (addSimulation entry ;;; Js.settle backend)%js.

(** [backend] is what [fetchSimulate(args)], or [fetchSignature(args)] in
    the other branch, settles to.  A simulation is an object, so
    [!response.simulation] holds exactly when the field is absent. *)
Definition fetchSimulationAndUpdate (args : Request.RequestArgs)
           (backend : Outcome (Models.Response Sim)) : Js.M Chrome unit :=
  (response <-
     (if Request.has_transaction args
      then add_and_fetch
             {| id := Request.id args; type := Simulation; state := Simulating;
                simulation := None; error := None |} backend
      else add_and_fetch
             {| id := Request.id args; type := Signature; state := Simulating;
                simulation := None; error := None |} backend) ;;
   match Models.type response with
   | Models.Error =>
       updateSimulatioWithErrorMsg (Request.id args) (Models.error response)
   | Models.Revert =>
       revertSimulation (Request.id args) (Models.error response)
   | Models.Success =>
       match Models.simulation response with
       | None => Js.throw (Js.Error "Invalid state")
       | Some sim => completeSimulation (Request.id args) sim
       end
   | Models.Veto => Js.ret tt
   end)%js.

Definition needs_removal (st : StoredSimulationState) : bool :=
  match st with
  | Rejected | Confirmed => true
  | _ => false
  end.

Definition clearOldSimulations : Js.M Chrome unit :=
  (simulations <- get_simulations ;;
   set_simulations
     (filter (fun x => negb (needs_removal (state x))) simulations))%js.

(** [chrome.action.setIcon({ path })] *)
Definition setIcon (path : string) : Js.M Chrome unit :=
  fun c =>
    match action c with
    | None => (Thrown Js.TypeError, c)
    | Some _ => (Returned tt, with_icon path c)
    end.

Definition updateIcon (s : Settings) : Js.M Chrome unit :=
  if disable s then setIcon "icon-32-gray.png" else setIcon "icon-32.png".

(** [settings.disable = v] on the document just read. *)
Definition assign_disable (v : bool) (s : Settings) : Settings :=
  match s with
  | {| disable := _ |} => {| disable := v |}
  end.

Definition setSettings (args : Settings) : Js.M Chrome unit :=
  (settings <- get_settings ;;
   let settings := assign_disable (disable args) settings in
   updateIcon settings ;;;
   set_settings settings)%js.

Definition getSettings : Js.M Chrome Settings := get_settings.

Definition simulationNeedsAction (st : StoredSimulationState) : bool :=
  match st with
  | Success | Error | Simulating | Revert => true
  | _ => false
  end.

(** What a reader of the store sees: the sequence under [STORAGE_KEY]. *)
Definition stored (c : Chrome) : list StoredSimulation :=
  match simulations c with Some v => v | None => [] end.

End WithSimulation.

Arguments with_simulations {Sim} v c.
Arguments with_settings {Sim} v c.
Arguments with_faults {Sim} f c.
Arguments with_icon {Sim} path c.
Arguments sync_call {Sim}.
Arguments get_simulations {Sim}.
Arguments set_simulations {Sim} v.
Arguments get_settings {Sim}.
Arguments set_settings {Sim} v.
Arguments addSimulation {Sim} simulation.
Arguments complete_entry {Sim} id0 sim x.
Arguments revert_entry {Sim} id0 err x.
Arguments state_entry {Sim} id0 st x.
Arguments error_entry {Sim} id0 err x.
Arguments completeSimulation {Sim} id0 sim.
Arguments revertSimulation {Sim} id0 err.
Arguments removeSimulation {Sim} id0.
Arguments updateSimulationState {Sim} id0 st.
Arguments updateSimulatioWithErrorMsg {Sim} id0 err.
Arguments add_and_fetch {Sim} entry backend.
Arguments fetchSimulationAndUpdate {Sim} args backend.
Arguments clearOldSimulations {Sim}.
Arguments setIcon {Sim} path.
Arguments updateIcon {Sim} s.
Arguments setSettings {Sim} args.
Arguments getSettings {Sim}.
Arguments id {Sim} s.
Arguments type {Sim} s.
Arguments state {Sim} s.
Arguments simulation {Sim} s.
Arguments error {Sim} s.
Arguments simulations {Sim} c.
Arguments settings {Sim} c.
Arguments faults {Sim} c.
Arguments action {Sim} c.
Arguments stored {Sim} c.

End Storage.

(* ================================================================== *)
(** ** The injected page script *)

Module Injected.

Definition eth_signTypedData_v3 : string := "eth_signTypedData_v3".
Definition eth_signTypedData_v4 : string := "eth_signTypedData_v4".
Definition eth_sendTransaction : string := "eth_sendTransaction".

Definition tx_rejected_message : string :=
  "PocketUniverse Tx Signature: User denied transaction signature.".
Definition message_rejected_message : string :=
  "PocketUniverse Message Signature: User denied message signature.".

(** [ethErrors.provider.userRejectedRequest(message)]: the provider error
    of code 4001. *)
Definition userRejectedRequest (message : string) : Js.Exn :=
  Js.ProviderError 4001 message.

(** The calls the wrapper makes on its collaborators, in order. *)
Inductive Event : Type :=
| Forward (prop : string) (args : list Js.Value)   (* originalCall(...args) *)
| TargetRequest (arg : Js.Value)                   (* target.request(arg) *)
| Dispatch (body : Request.Body).                  (* REQUEST_MANAGER.request(body) *)

(** What [handler.get] hands to the page for a property. *)
Inductive Member : Type :=
| Reflected (prop : string)    (* Reflect.get(target, prop, receiver) itself *)
| Wrapper (prop : string).     (* the async wrapper around that value *)

Definition reserved (prop : string) : bool :=
  String.eqb prop "request" || String.eqb prop "send" || String.eqb prop "sendAsync".

Section WithSimulation.
Variable Sim : Type.

(** The extension's store and the log of calls made so far. *)
Record World : Type := {
  calls : list Event;
  chrome : Storage.Chrome Sim;
}.

(** The collaborators of the page script.  [settings_disable] is
    [settings.disable].  [underlying prop args] is what calling the
    provider's own [prop] with [args] settles to (a [TypeError] when it
    is no function).  [target_request] is [target.request].
    [manager_request] is [REQUEST_MANAGER.request]: whatever it does to
    the store, and its decision.  [json_parse] is [JSON.parse]. *)
Record Env : Type := {
  settings_disable : bool;
  underlying : string -> list Js.Value -> Outcome Js.Value;
  target_request : Js.Value -> Outcome Js.Value;
  manager_request :
    Request.Body -> Storage.Chrome Sim -> Outcome Request.Response * Storage.Chrome Sim;
  json_parse : Js.Value -> Outcome Js.Value;
}.

Variable env : Env.

Definition record (e : Event) (w : World) : World :=
  {| calls := calls w ++ [e]; chrome := chrome w |}.

(** [originalCall(...args)] *)
Definition originalCall (prop : string) (args : list Js.Value) : Js.M World Js.Value :=
  fun w => (underlying env prop args, record (Forward prop args) w).

(** [await target.request({ method: 'eth_chainId' })] *)
Definition chainId_query : Js.Value := Js.VObj [("method", Js.VStr "eth_chainId")].

Definition request_chainId : Js.M World Js.Value :=
  fun w => (target_request env chainId_query, record (TargetRequest chainId_query) w).

(** [await REQUEST_MANAGER.request(body)] *)
Definition request_manager (body : Request.Body) : Js.M World Request.Response :=
  fun w =>
    let (decision, c) := manager_request env body (chrome w) in
    (decision, {| calls := calls w ++ [Dispatch body]; chrome := c |}).

Definition read (v : Js.Value) (name : string) : Js.M World Js.Value :=
  Js.settle (Js.get v (Js.KName name)).

Definition index (v : Js.Value) (i : nat) : Js.M World Js.Value :=
  Js.settle (Js.get v (Js.KIndex i)).

(** The tail of the wrapper: forward on [Continue] and [Error]; an async
    function that falls off its end resolves to [undefined]. *)
Definition conclude (prop : string) (args : list Js.Value)
           (response : Request.Response) : Js.M World Js.Value :=
  match response with
  | Request.Continue | Request.Error => originalCall prop args
  | Request.Reject => Js.ret Js.VUndefined
  end.

Definition is_reject (response : Request.Response) : bool :=
  match response with
  | Request.Reject => true
  | _ => false
  end.

(** The async function that [handler.get] returns for a reserved
    property.  The values are plain data, so the repeated reads of
    [requestArg.method] and [requestArg.params] in the source give one
    value each; the first read is where a [TypeError] can arise. *)
Definition wrapper (prop : string) (args : list Js.Value) : Js.M World Js.Value :=
  (let requestArg := Js.arg0 args in
   method <- read requestArg "method" ;;
   if negb (Js.is_str method eth_signTypedData_v3)
      && negb (Js.is_str method eth_signTypedData_v4)
      && negb (Js.is_str method eth_sendTransaction)
   then originalCall prop args
   else if Js.is_str method eth_sendTransaction then
     params <- read requestArg "params" ;;
     len <- read params "length" ;;
     if negb (Js.is_num len 1) then originalCall prop args
     else
       chainId <- request_chainId ;;
       transaction <- index params 0 ;;
       response <- request_manager (Request.Transaction chainId transaction) ;;
       if is_reject response
       then Js.throw (userRejectedRequest tx_rejected_message)
       else conclude prop args response
   else if Js.is_str method eth_signTypedData_v3
           || Js.is_str method eth_signTypedData_v4 then
     params <- read requestArg "params" ;;
     len <- read params "length" ;;
     if negb (Js.is_num len 2) then originalCall prop args
     else
       typed <- index params 1 ;;
       params <- Js.settle (json_parse env typed) ;;
       chainId <- request_chainId ;;
       domain <- read params "domain" ;;
       message <- read params "message" ;;
       primaryType <- read params "primaryType" ;;
       response <- request_manager (Request.Signature chainId domain message primaryType) ;;
       if is_reject response
       then Js.throw (userRejectedRequest message_rejected_message)
       else conclude prop args response
   else Js.throw (Js.Error "Show never reach here"))%js.

(** [pocketUniverseProxyHandler.get] *)
Definition get (prop : string) : Member :=
  if settings_disable env then Reflected prop
  else if negb (reserved prop) then Reflected prop
  else Wrapper prop.

(** A call by the page of the member it got from the proxy. *)
Definition call (m : Member) (args : list Js.Value) : Js.M World Js.Value :=
  match m with
  | Reflected prop => originalCall prop args
  | Wrapper prop => wrapper prop args
  end.

End WithSimulation.

Arguments calls {Sim} w.
Arguments chrome {Sim} w.
Arguments settings_disable {Sim} e.
Arguments underlying {Sim} e prop args.
Arguments target_request {Sim} e arg.
Arguments manager_request {Sim} e body c.
Arguments json_parse {Sim} e text.
Arguments record {Sim} e w.
Arguments originalCall {Sim} env prop args.
Arguments request_chainId {Sim} env.
Arguments request_manager {Sim} env body.
Arguments read {Sim} v name.
Arguments index {Sim} v i.
Arguments conclude {Sim} env prop args response.
Arguments wrapper {Sim} env prop args.
Arguments get {Sim} env prop.
Arguments call {Sim} env m args.

(** *** The [window.ethereum] accessor pair *)

(** [proxies] lists the [Proxy] objects built so far, each by its target;
    a proxy is identified by its position there.  [cachedProxy] is [None]
    while the variable is still [undefined]. *)
Record Binding : Type := {
  currentProvider : Js.Value;
  cachedProxy : option nat;
  providerChanged : bool;
  proxies : list Js.Value;
}.

(** The state when the script has run: [currentProvider = window.ethereum],
    [providerChanged = true]. *)
Definition installed (ethereum : Js.Value) : Binding :=
  {| currentProvider := ethereum; cachedProxy := None;
     providerChanged := true; proxies := [] |}.

(** [new Proxy(currentProvider, handler)], stored in [cachedProxy]; the
    constructor throws when its target is not an object. *)
Definition rebuild : Js.M Binding unit :=
  fun b =>
    if Js.is_object (currentProvider b)
    then (Returned tt,
          {| currentProvider := currentProvider b;
             cachedProxy := Some (List.length (proxies b));
             providerChanged := false;
             proxies := proxies b ++ [currentProvider b] |})
    else (Thrown Js.TypeError, b).

Definition ethereum_get : Js.M Binding (option nat) :=
  (changed <- Js.gets providerChanged ;;
   (if changed : bool then rebuild else Js.ret tt) ;;;
   Js.gets cachedProxy)%js.

Definition ethereum_set (newProvider : Js.Value) : Js.M Binding unit :=
  Js.modify (fun b =>
    {| currentProvider := newProvider; cachedProxy := cachedProxy b;
       providerChanged := true; proxies := proxies b |}).

(** The target a proxy wraps. *)
Definition target_of (b : Binding) (proxy : nat) : option Js.Value :=
  nth_error (proxies b) proxy.

(** The page's accesses to the property, and the states they lead to. *)
Inductive Access : Type :=
| Get
| Set_ (newProvider : Js.Value).

Definition access (a : Access) (b : Binding) : Binding :=
  match a with
  | Get => snd (ethereum_get b)
  | Set_ p => snd (ethereum_set p b)
  end.

Definition after (history : list Access) (ethereum : Js.Value) : Binding :=
  fold_left (fun b a => access a b) history (installed ethereum).

(** The cached proxy, if any, is one of those built so far, and while the
    flag is clear it is a proxy of the current provider. *)
Definition cache_built (b : Binding) : Prop :=
  (forall n, cachedProxy b = Some n -> n < List.length (proxies b))
  /\ (providerChanged b = false ->
      exists n, cachedProxy b = Some n /\ target_of b n = Some (currentProvider b)).

(** The state after [k] more reads. *)
Definition reread (k : nat) (b : Binding) : Binding :=
  Nat.iter k (fun s => snd (ethereum_get s)) b.

End Injected.

(* ================================================================== *)
(** ** Vocabulary of the statements *)

Module Lifecycle.
Import Storage.

Section WithSimulation.
Variable Sim : Type.

(** The three terminal writes of the dispatcher, with their payload. *)
Inductive TerminalWrite : Type :=
| Complete (sim : Sim)                   (* completeSimulation(id, sim) *)
| RevertWith (err : option string)       (* revertSimulation(id, err) *)
| ErrorWith (err : option string).       (* updateSimulatioWithErrorMsg(id, err) *)

Definition write (id0 : string) (t : TerminalWrite) : Js.M (Chrome Sim) unit :=
  match t with
  | Complete sim => completeSimulation id0 sim
  | RevertWith err => revertSimulation id0 err
  | ErrorWith err => updateSimulatioWithErrorMsg id0 err
  end.

Definition written_state (t : TerminalWrite) : StoredSimulationState :=
  match t with
  | Complete _ => Success
  | RevertWith _ => Revert
  | ErrorWith _ => Error
  end.

(** The entry callback of a terminal write. *)
Definition entry_write (id0 : string) (t : TerminalWrite)
  : StoredSimulation Sim -> StoredSimulation Sim :=
  match t with
  | Complete sim => complete_entry id0 sim
  | RevertWith err => revert_entry id0 err
  | ErrorWith err => error_entry id0 err
  end.

(** The read-modify-write shape all the store operations share. *)
Definition rewrite_with (f : list (StoredSimulation Sim) -> list (StoredSimulation Sim))
  : Js.M (Chrome Sim) unit :=
  Js.bind get_simulations (fun l => set_simulations (f l)).

(** The entry holds the payload of the write. *)
Definition carries (t : TerminalWrite) (x : StoredSimulation Sim) : Prop :=
  match t with
  | Complete sim => simulation x = Some sim
  | RevertWith err => error x = err
  | ErrorWith err => error x = err
  end.

(** The operations that act on the stored sequence.  Entries come in
    through the dispatcher, which adds them in state [Simulating] with no
    payload; [Decide] is the state-only transition of the user's
    decision. *)
Inductive Op : Type :=
| Dispatch (args : Request.RequestArgs) (backend : Outcome (Models.Response Sim))
| Add (id0 : string) (kind : StoredType)
| Terminal (id0 : string) (t : TerminalWrite)
| Decide (id0 : string) (confirmed : bool)
| Remove (id0 : string)
| ClearOld.

Definition run (o : Op) : Js.M (Chrome Sim) unit :=
  match o with
  | Dispatch args backend => fetchSimulationAndUpdate args backend
  | Add id0 kind =>
      addSimulation {| id := id0; type := kind; state := Simulating;
                           simulation := None; error := None |}
  | Terminal id0 t => write id0 t
  | Decide id0 confirmed =>
      updateSimulationState id0 (if confirmed then Confirmed else Rejected)
  | Remove id0 => removeSimulation id0
  | ClearOld => clearOldSimulations
  end.

(** A store that was never written, with any plan of storage faults. *)
Definition fresh (plan : list bool) (icon : option string) : Chrome Sim :=
  {| simulations := None; settings := None; faults := plan; action := icon |}.

(** The stores the operations lead to, whatever storage calls fail. *)
Inductive reachable : Chrome Sim -> Prop :=
| reach_fresh : forall plan icon, reachable (fresh plan icon)
| reach_run : forall c o, reachable c -> reachable (snd (run o c))
| reach_plan : forall c plan, reachable c -> reachable (with_faults plan c).

(** What every stored entry satisfies. *)
Definition payload_ok (x : StoredSimulation Sim) : Prop :=
  (state x = Simulating -> simulation x = None /\ error x = None)
  /\ (state x = Success -> simulation x <> None).

Definition store_ok (c : Chrome Sim) : Prop := Forall payload_ok (stored c).

(** The response kinds for which the dispatcher has a terminal write,
    and the write. *)
Definition terminal_of (r : Models.Response Sim) : option TerminalWrite :=
  match Models.type r with
  | Models.Error => Some (ErrorWith (Models.error r))
  | Models.Revert => Some (RevertWith (Models.error r))
  | Models.Success =>
      match Models.simulation r with
      | Some sim => Some (Complete sim)
      | None => None
      end
  | Models.Veto => None
  end.

(** The tail of [fetchSimulationAndUpdate]: the chain of tests on
    [response.type]. *)
Definition fold_response (id0 : string) (response : Models.Response Sim)
  : Js.M (Chrome Sim) unit :=
  match Models.type response with
  | Models.Error => updateSimulatioWithErrorMsg id0 (Models.error response)
  | Models.Revert => revertSimulation id0 (Models.error response)
  | Models.Success =>
      match Models.simulation response with
      | None => Js.throw (Js.Error "Invalid state")
      | Some sim => completeSimulation id0 sim
      end
  | Models.Veto => Js.ret tt
  end.

(** The entry the dispatcher adds for [args]. *)
Definition entry_of (args : Request.RequestArgs) : StoredSimulation Sim :=
  {| id := Request.id args;
     type := if Request.has_transaction args then Simulation else Signature;
     state := Simulating; simulation := None; error := None |}.

End WithSimulation.

Arguments Complete {Sim} sim.
Arguments RevertWith {Sim} err.
Arguments ErrorWith {Sim} err.
Arguments write {Sim} id0 t.
Arguments entry_write {Sim} id0 t x.
Arguments rewrite_with {Sim} f.
Arguments written_state {Sim} t.
Arguments carries {Sim} t x.
Arguments Dispatch {Sim} args backend.
Arguments Add {Sim} id0 kind.
Arguments Terminal {Sim} id0 t.
Arguments Decide {Sim} id0 confirmed.
Arguments Remove {Sim} id0.
Arguments ClearOld {Sim}.
Arguments run {Sim} o.
Arguments fresh {Sim} plan icon.
Arguments reachable {Sim} c.
Arguments payload_ok {Sim} x.
Arguments store_ok {Sim} c.
Arguments terminal_of {Sim} r.
Arguments fold_response {Sim} id0 response.
Arguments entry_of {Sim} args.

End Lifecycle.

(* ================================================================== *)
(** ** Fixtures of the concrete runs *)

Module Runs.
Import Storage.

(** Two stored requests, the simulation payload rendered as text. *)
Definition two_entries : Chrome string :=
  {| simulations :=
       Some [ {| id := "a"; type := Simulation; state := Simulating;
                 simulation := None; error := None |};
              {| id := "b"; type := Signature; state := Revert;
                 simulation := None; error := Some "execution reverted" |} ];
     settings := None; faults := []; action := Some "icon-32.png" |}.

Definition send_args : Request.RequestArgs :=
  {| Request.id := "a";
     Request.body := Request.Transaction (Js.VStr "0x1") (Js.VObj [("to", Js.VStr "0xabc")]) |}.

Definition success_without_simulation : Models.Response string :=
  {| Models.type := Models.Success; Models.simulation := None; Models.error := None |}.

Definition success_response : Models.Response string :=
  {| Models.type := Models.Success; Models.simulation := Some "receive 1 NFT";
     Models.error := None |}.

(** A provider whose calls all answer [null], a manager that vetoes. *)
Definition vetoing : Injected.Env string :=
  {| Injected.settings_disable := false;
     Injected.underlying := fun _ _ => Returned Js.VNull;
     Injected.target_request := fun _ => Returned (Js.VStr "0x1");
     Injected.manager_request := fun _ c => (Returned Request.Reject, c);
     Injected.json_parse := fun _ => Thrown Js.SyntaxError |}.

Definition page_world : Injected.World string :=
  {| Injected.calls := []; Injected.chrome := two_entries |}.

Definition request_of (method : string) (params : list Js.Value) : Js.Value :=
  Js.VObj [("method", Js.VStr method); ("params", Js.VArr params)].

End Runs.

(* ================================================================== *)
(** ** The rest of [lib/storage.ts]: the code run when the module loads *)

Module Startup.
Import Storage.

Section WithSimulation.
Variable Sim : Type.

(** [if (chrome.action) { getSettings().then(updateIcon); }]: the promise
    chain started at load time, where [chrome.action] exists. *)
Definition on_load : Js.M (Chrome Sim) unit :=
  fun c =>
    match action c with
    | None => (Returned tt, c)
    | Some _ => Js.bind getSettings updateIcon c
    end.

End WithSimulation.

Arguments on_load {Sim}.

End Startup.

(* ================================================================== *)
(** ** Further vocabulary: traces, histories, operations *)

Module Trace.
Import Injected.

Definition is_forward (e : Event) : bool :=
  match e with
  | Forward _ _ => true
  | _ => false
  end.

Definition is_dispatch (e : Event) : bool :=
  match e with
  | Dispatch _ => true
  | _ => false
  end.

(** How often the provider's own member, and the request manager, were
    called in a stretch of the log. *)
Definition forwards (events : list Event) : nat :=
  List.length (filter is_forward events).

Definition dispatches (events : list Event) : nat :=
  List.length (filter is_dispatch events).

Definition is_set (a : Access) : bool :=
  match a with
  | Set_ _ => true
  | Get => false
  end.

(** The number of writes of the property in a history. *)
Definition sets (history : list Access) : nat :=
  List.length (filter is_set history).

(** The runs the wrapper can make, by the calls they add to the log. *)
Inductive Shape : Type :=
| Silent                                  (* nothing called *)
| Forwarded                               (* originalCall only *)
| Queried                                 (* the chain id query only *)
| Submitted (body : Request.Body)         (* query and dispatch *)
| SubmittedForwarded (body : Request.Body). (* query, dispatch, originalCall *)

Definition events_of (prop : string) (args : list Js.Value) (s : Shape) : list Event :=
  match s with
  | Silent => []
  | Forwarded => [Forward prop args]
  | Queried => [TargetRequest chainId_query]
  | Submitted body => [TargetRequest chainId_query; Dispatch body]
  | SubmittedForwarded body =>
      [TargetRequest chainId_query; Dispatch body; Forward prop args]
  end.

Definition ends_forwarded (s : Shape) : bool :=
  match s with
  | Forwarded | SubmittedForwarded _ => true
  | _ => false
  end.

Definition submitted (s : Shape) : option Request.Body :=
  match s with
  | Submitted body | SubmittedForwarded body => Some body
  | _ => None
  end.

End Trace.

Module Ops.
Import Storage Lifecycle.

Section WithSimulation.
Variable Sim : Type.

(** The image of the stored sequence under an operation that is one
    read-modify-write of the store; [None] for the dispatcher, which is
    several. *)
Definition image (o : Op Sim)
  : option (list (StoredSimulation Sim) -> list (StoredSimulation Sim)) :=
  match o with
  | Dispatch _ _ => None
  | Add id0 kind =>
      Some (fun l => (l ++ [{| id := id0; type := kind; state := Simulating;
                               simulation := None; error := None |}])%list)
  | Terminal id0 t => Some (map (entry_write id0 t))
  | Decide id0 confirmed =>
      Some (map (state_entry id0 (if confirmed then Confirmed else Rejected)))
  | Remove id0 => Some (filter (fun x => negb (String.eqb (id x) id0)))
  | ClearOld => Some (filter (fun x => negb (needs_removal (state x))))
  end.

End WithSimulation.

Arguments image {Sim} o.

End Ops.

(* ================================================================== *)
(** ** Further fixtures *)

Module Samples.
Import Storage.

(** A store whose four entries are in four different states. *)
Definition mixed : Chrome string :=
  {| simulations :=
       Some [ {| id := "a"; type := Simulation; state := Success;
                 simulation := Some "send 1 ETH"; error := None |};
              {| id := "b"; type := Signature; state := Confirmed;
                 simulation := None; error := None |};
              {| id := "c"; type := Simulation; state := Rejected;
                 simulation := None; error := Some "reverted" |};
              {| id := "d"; type := Simulation; state := Simulating;
                 simulation := None; error := None |} ];
     settings := Some {| disable := true |};
     faults := []; action := Some "icon-32-gray.png" |}.

(** The same documents seen from a content script, where [chrome.action]
    is undefined. *)
Definition content_script : Chrome string :=
  {| simulations := simulations mixed; settings := settings mixed;
     faults := []; action := None |}.

(** A store whose next storage call rejects. *)
Definition failing : Chrome string :=
  {| simulations := simulations mixed; settings := settings mixed;
     faults := [true]; action := None |}.

Definition typed_data : Js.Value :=
  Js.VObj [("domain", Js.VObj [("name", Js.VStr "Seaport")]);
           ("message", Js.VObj [("offerer", Js.VStr "0xabc")]);
           ("primaryType", Js.VStr "OrderComponents")].

(** A provider that answers every call with its chain id, a manager that
    lets everything through, and a parser that knows one document. *)
Definition permissive : Injected.Env string :=
  {| Injected.settings_disable := false;
     Injected.underlying := fun _ _ => Returned (Js.VStr "0xsigned");
     Injected.target_request := fun _ => Returned (Js.VStr "0x1");
     Injected.manager_request := fun _ c => (Returned Request.Continue, c);
     Injected.json_parse :=
       fun v => if Js.is_str v "typed" then Returned typed_data
                else Thrown Js.SyntaxError |}.

(** The same with the extension switched off. *)
Definition disabled : Injected.Env string :=
  {| Injected.settings_disable := true;
     Injected.underlying := fun _ _ => Returned (Js.VStr "0xsigned");
     Injected.target_request := fun _ => Returned (Js.VStr "0x1");
     Injected.manager_request := fun _ c => (Returned Request.Reject, c);
     Injected.json_parse := fun _ => Thrown Js.SyntaxError |}.

(** A provider whose chain id query fails and a manager that is down. *)
Definition broken : Injected.Env string :=
  {| Injected.settings_disable := false;
     Injected.underlying := fun _ _ => Returned (Js.VStr "0xsigned");
     Injected.target_request := fun _ => Thrown (Js.Error "disconnected");
     Injected.manager_request := fun _ c => (Thrown (Js.Error "timeout"), c);
     Injected.json_parse := fun _ => Returned typed_data |}.

(** A provider that answers, with a manager that is down. *)
Definition unreachable : Injected.Env string :=
  {| Injected.settings_disable := false;
     Injected.underlying := fun _ _ => Returned (Js.VStr "0xsigned");
     Injected.target_request := fun _ => Returned (Js.VStr "0x1");
     Injected.manager_request := fun _ c => (Thrown (Js.Error "timeout"), c);
     Injected.json_parse := fun _ => Returned typed_data |}.

Definition page : Injected.World string :=
  {| Injected.calls := []; Injected.chrome := mixed |}.

Definition sign_request : Js.Value :=
  Js.VObj [("method", Js.VStr "eth_signTypedData_v4");
           ("params", Js.VArr [Js.VStr "0xabc"; Js.VStr "typed"])].

Definition send_request : Js.Value :=
  Js.VObj [("method", Js.VStr "eth_sendTransaction");
           ("params", Js.VArr [Js.VObj [("to", Js.VStr "0xabc")]])].

End Samples.

(* ================================================================== *)
(** ** Facts about the store *)

Section StoreFacts.
Import Storage Lifecycle.
Variable Sim : Type.

Local Abbreviation Chrome := (Storage.Chrome Sim).
Local Abbreviation Entry := (Storage.StoredSimulation Sim).

Lemma rewrite_with_available (f : list Entry -> list Entry) (c : Chrome) :
  faults c = [] ->
  rewrite_with f c = (Returned tt, with_simulations (f (stored c)) c).
Proof.
  intros H.
  unfold rewrite_with, get_simulations, set_simulations, sync_call,
    Js.bind, Js.gets, Js.modify, stored.
  rewrite H. cbn. rewrite H. reflexivity.
Qed.

Lemma stored_with_simulations (v : list Entry) (c : Chrome) :
  stored (with_simulations v c) = v.
Proof. reflexivity. Qed.

Lemma faults_with_simulations (v : list Entry) (c : Chrome) :
  faults (with_simulations v c) = faults c.
Proof. reflexivity. Qed.

Lemma with_simulations_twice (v v' : list Entry) (c : Chrome) :
  with_simulations v (with_simulations v' c) = with_simulations v c.
Proof. reflexivity. Qed.

(** Whatever the storage does, a rewrite leaves the sequence as it was or
    replaces it by its image. *)
Lemma rewrite_with_cases (f : list Entry -> list Entry) (c : Chrome) :
  stored (snd (rewrite_with f c)) = stored c
  \/ stored (snd (rewrite_with f c)) = f (stored c).
Proof.
  unfold rewrite_with, get_simulations, set_simulations, sync_call,
    Js.bind, Js.gets, Js.modify.
  destruct c as [sims sets plan icon]; cbn.
  destruct plan as [|[] [|[] plan]]; cbn; auto.
Qed.

Lemma write_is_rewrite (id0 : string) (t : TerminalWrite Sim) :
  write id0 t = rewrite_with (map (entry_write id0 t)).
Proof. destruct t; reflexivity. Qed.

Lemma write_available (id0 : string) (t : TerminalWrite Sim) (c : Chrome) :
  faults c = [] ->
  write id0 t c = (Returned tt, with_simulations (map (entry_write id0 t) (stored c)) c).
Proof.
  intros H. rewrite write_is_rewrite. now rewrite rewrite_with_available.
Qed.

Lemma entry_write_id (id0 : string) (t : TerminalWrite Sim) (x : Entry) :
  id (entry_write id0 t x) = id x.
Proof.
  destruct t; cbn;
    unfold complete_entry, revert_entry, error_entry;
    destruct (String.eqb (id x) id0); reflexivity.
Qed.

Lemma entry_write_hit (id0 : string) (t : TerminalWrite Sim) (x : Entry) :
  id x = id0 ->
  state (entry_write id0 t x) = written_state t /\ carries t (entry_write id0 t x).
Proof.
  intros H. apply String.eqb_eq in H.
  destruct t; cbn; unfold complete_entry, revert_entry, error_entry;
    rewrite H; cbn; auto.
Qed.

Lemma entry_write_miss (id0 : string) (t : TerminalWrite Sim) (x : Entry) :
  id x <> id0 -> entry_write id0 t x = x.
Proof.
  intros H. apply String.eqb_neq in H.
  destruct t; cbn; unfold complete_entry, revert_entry, error_entry;
    rewrite H; reflexivity.
Qed.

Lemma entry_write_idem (id0 : string) (t : TerminalWrite Sim) (x : Entry) :
  entry_write id0 t (entry_write id0 t x) = entry_write id0 t x.
Proof.
  destruct t; cbn; unfold complete_entry, revert_entry, error_entry;
    destruct (String.eqb (id x) id0) eqn:E; cbn; rewrite E; reflexivity.
Qed.

Lemma map_entry_write_miss (id0 : string) (t : TerminalWrite Sim) (l : list Entry) :
  (forall x, In x l -> id x <> id0) -> map (entry_write id0 t) l = l.
Proof.
  induction l as [|x l IH]; intros H; cbn; [reflexivity|].
  rewrite entry_write_miss by (apply H; now left).
  f_equal. apply IH. intros y Hy. apply H. now right.
Qed.

(** C7.  With the storage calls succeeding, each of the three terminal
    writes ([completeSimulation], [revertSimulation],
    [updateSimulatioWithErrorMsg]) returns and keeps the ids of the
    sequence in their order; writing the same state and payload for the
    same id a second time changes nothing more; after two terminal writes
    for one id, every entry of that id has the state and holds the payload
    of the later one; and when no entry has the id, the stored sequence is
    the one before. *)
Theorem terminal_writes_idempotent_last_wins (c : Chrome) (id0 : string) :
  faults c = [] ->
  (forall t,
      fst (write id0 t c) = Returned tt
      /\ map id (stored (snd (write id0 t c))) = map id (stored c))
  /\ (forall t,
      write id0 t (snd (write id0 t c)) = (Returned tt, snd (write id0 t c)))
  /\ (forall t1 t2 x,
      In x (stored (snd (write id0 t2 (snd (write id0 t1 c))))) ->
      id x = id0 ->
      state x = written_state t2 /\ carries t2 x)
  /\ (forall t,
      (forall x, In x (stored c) -> id x <> id0) ->
      fst (write id0 t c) = Returned tt
      /\ stored (snd (write id0 t c)) = stored c).
Proof.
  intros H.
  assert (twice : forall t1 t2,
             write id0 t2 (snd (write id0 t1 c)) =
             (Returned tt,
              with_simulations
                (map (entry_write id0 t2) (map (entry_write id0 t1) (stored c))) c)).
  { intros t1 t2. rewrite (write_available id0 t1) by assumption. cbn [snd].
    rewrite write_available by assumption.
    now rewrite stored_with_simulations, with_simulations_twice. }
  split; [|split; [|split]].
  - intros t. rewrite write_available by assumption. cbn. split; [reflexivity|].
    rewrite map_map. apply map_ext. intros x. apply entry_write_id.
  - intros t. rewrite twice, write_available by assumption. cbn [snd].
    do 2 f_equal. rewrite map_map. apply map_ext. intros x. apply entry_write_idem.
  - intros t1 t2 x Hin Hid. rewrite twice in Hin. cbn in Hin.
    apply in_map_iff in Hin. destruct Hin as [y [<- _]].
    apply entry_write_hit. now rewrite entry_write_id in Hid.
  - intros t Hmiss. rewrite write_available by assumption. cbn.
    split; [reflexivity|]. now apply map_entry_write_miss.
Qed.


(** *** The state-only transition *)

Lemma updateSimulationState_is_rewrite (id0 : string) (st : StoredSimulationState) :
  updateSimulationState (Sim:=Sim) id0 st = rewrite_with (map (state_entry id0 st)).
Proof. reflexivity. Qed.

Lemma state_entry_frame (id0 : string) (st : StoredSimulationState) (x : Entry) :
  id (state_entry id0 st x) = id x
  /\ type (state_entry id0 st x) = type x
  /\ simulation (state_entry id0 st x) = simulation x
  /\ error (state_entry id0 st x) = error x
  /\ (id x = id0 -> state (state_entry id0 st x) = st)
  /\ (id x <> id0 -> state_entry id0 st x = x).
Proof.
  unfold state_entry. destruct (String.eqb (id x) id0) eqn:E; cbn.
  - apply String.eqb_eq in E. repeat split; congruence.
  - apply String.eqb_neq in E. repeat split; congruence.
Qed.

(** C9.  With the storage calls succeeding, [updateSimulationState id0 st]
    returns, leaves the settings document alone, and keeps the length and
    the order of the stored sequence: the entry at each position keeps its
    [id], [type], [simulation] and [error]; it has the state [st] when its
    id is [id0], and is the very entry that was there when its id is not. *)
Theorem updateSimulationState_changes_only_state
        (c : Chrome) (id0 : string) (st : StoredSimulationState) :
  faults c = [] ->
  fst (updateSimulationState id0 st c) = Returned tt
  /\ settings (snd (updateSimulationState id0 st c)) = settings c
  /\ List.length (stored (snd (updateSimulationState id0 st c))) = List.length (stored c)
  /\ (forall n x,
        nth_error (stored c) n = Some x ->
        exists y,
          nth_error (stored (snd (updateSimulationState id0 st c))) n = Some y
          /\ id y = id x /\ type y = type x
          /\ simulation y = simulation x /\ error y = error x
          /\ (id x = id0 -> state y = st)
          /\ (id x <> id0 -> y = x)).
Proof.
  intros H.
  rewrite updateSimulationState_is_rewrite, rewrite_with_available by assumption.
  cbn [fst snd]. rewrite stored_with_simulations.
  split; [reflexivity|]. split; [reflexivity|].
  split; [apply length_map|].
  intros n x Hn. exists (state_entry id0 st x).
  split; [now rewrite nth_error_map, Hn|].
  apply state_entry_frame.
Qed.

(** *** What the stored entries satisfy *)

Lemma snd_bind {S A B} (m : Js.M S A) (k : A -> Js.M S B) (s : S) :
  snd (Js.bind m k s) =
  match fst (m s) with
  | Returned a => snd (k a (snd (m s)))
  | Thrown _ => snd (m s)
  end.
Proof. unfold Js.bind. destruct (m s) as [[a|e] s']; reflexivity. Qed.

Lemma rewrite_with_keeps (f : list Entry -> list Entry) (c : Chrome) :
  (forall l, Forall payload_ok l -> Forall payload_ok (f l)) ->
  store_ok c -> store_ok (snd (rewrite_with f c)).
Proof.
  unfold store_ok. intros Hf Hc.
  destruct (rewrite_with_cases f c) as [-> | ->]; auto.
Qed.

Lemma payload_ok_entry_write (id0 : string) (t : TerminalWrite Sim) (x : Entry) :
  payload_ok x -> payload_ok (entry_write id0 t x).
Proof.
  intros Hx. destruct (string_dec (id x) id0) as [E|E].
  - destruct (entry_write_hit id0 t x E) as [Hs Hc].
    split; intros Hst; rewrite Hs in Hst; destruct t; cbn in *;
      try discriminate; congruence.
  - now rewrite entry_write_miss.
Qed.

Lemma payload_ok_decided (id0 : string) (confirmed : bool) (x : Entry) :
  payload_ok x ->
  payload_ok (state_entry id0 (if confirmed then Confirmed else Rejected) x).
Proof.
  intros Hx. unfold state_entry. destruct (String.eqb (id x) id0); [|exact Hx].
  split; cbn; intros Hst; destruct confirmed; discriminate.
Qed.

Lemma payload_ok_entry_of (args : Request.RequestArgs) :
  payload_ok (entry_of (Sim:=Sim) args).
Proof. split; cbn; intros; [auto | discriminate]. Qed.

Lemma Forall_map_keeps (f : Entry -> Entry) (l : list Entry) :
  (forall x, payload_ok x -> payload_ok (f x)) ->
  Forall payload_ok l -> Forall payload_ok (map f l).
Proof.
  intros Hf Hl. induction Hl; cbn; constructor; auto.
Qed.

Lemma Forall_filter_keeps (p : Entry -> bool) (l : list Entry) :
  Forall payload_ok l -> Forall payload_ok (filter p l).
Proof.
  intros Hl. induction Hl as [|x l Hx Hl IH]; cbn; [constructor|].
  destruct (p x); [constructor|]; assumption.
Qed.

Lemma write_keeps (id0 : string) (t : TerminalWrite Sim) (c : Chrome) :
  store_ok c -> store_ok (snd (write id0 t c)).
Proof.
  rewrite write_is_rewrite. apply rewrite_with_keeps.
  intros l. apply Forall_map_keeps, payload_ok_entry_write.
Qed.

Lemma fetchSimulationAndUpdate_unfold (args : Request.RequestArgs)
      (backend : Outcome (Models.Response Sim)) :
  fetchSimulationAndUpdate args backend =
  Js.bind (add_and_fetch (entry_of args) backend) (fold_response (Request.id args)).
Proof.
  unfold fetchSimulationAndUpdate, entry_of.
  destruct (Request.has_transaction args); reflexivity.
Qed.

Lemma add_and_fetch_keeps (e : Entry) (backend : Outcome (Models.Response Sim))
      (c : Chrome) :
  payload_ok e -> store_ok c -> store_ok (snd (add_and_fetch e backend c)).
Proof.
  intros He Hc. unfold add_and_fetch. rewrite snd_bind.
  assert (Hadd : store_ok (snd (addSimulation e c))).
  { change (addSimulation e) with (rewrite_with (fun l : list Entry => (l ++ [e])%list)).
    apply rewrite_with_keeps; [|assumption].
    intros l Hl. apply Forall_app. split; [assumption|]. now constructor. }
  destruct (fst (addSimulation e c)); assumption.
Qed.

Lemma fold_response_keeps (id0 : string) (r : Models.Response Sim) (c : Chrome) :
  store_ok c -> store_ok (snd (fold_response id0 r c)).
Proof.
  intros Hc. unfold fold_response.
  destruct (Models.type r).
  - destruct (Models.simulation r) as [sim|]; [|exact Hc].
    apply (write_keeps id0 (Complete sim)), Hc.
  - apply (write_keeps id0 (RevertWith (Models.error r))), Hc.
  - apply (write_keeps id0 (ErrorWith (Models.error r))), Hc.
  - exact Hc.
Qed.

Lemma run_keeps (o : Op Sim) (c : Chrome) :
  store_ok c -> store_ok (snd (run o c)).
Proof.
  intros Hc. destruct o as [args backend|id0 kind|id0 t|id0 confirmed|id0|]; cbn [run].
  - rewrite fetchSimulationAndUpdate_unfold, snd_bind.
    pose proof (add_and_fetch_keeps (entry_of args) backend c
                  (payload_ok_entry_of args) Hc) as H1.
    destruct (fst (add_and_fetch (entry_of args) backend c)) as [r|e]; [|assumption].
    now apply fold_response_keeps.
  - change (store_ok (snd (rewrite_with
              (fun l : list Entry =>
                 (l ++ [{| id := id0; type := kind; state := Simulating;
                           simulation := None; error := None |}])%list) c))).
    apply rewrite_with_keeps; [|assumption].
    intros l Hl. apply Forall_app. split; [assumption|].
    constructor; [|constructor]. split; cbn; intros; [auto | discriminate].
  - now apply write_keeps.
  - rewrite updateSimulationState_is_rewrite.
    apply rewrite_with_keeps; [|assumption].
    intros l. apply Forall_map_keeps. intros x. apply payload_ok_decided.
  - apply (rewrite_with_keeps
             (filter (fun x : Entry => negb (String.eqb (id x) id0)))); [|assumption].
    intros l. apply Forall_filter_keeps.
  - apply (rewrite_with_keeps
             (filter (fun x : Entry => negb (needs_removal (state x))))); [|assumption].
    intros l. apply Forall_filter_keeps.
Qed.

(** C3, as the code has it.  In every store the operations lead to (the
    dispatcher, its add and its three terminal writes on their own, the
    state-only transition to [Confirmed] or [Rejected], removal and
    cleanup, with storage calls failing or not), a stored entry in state
    [Simulating] has neither [simulation] nor [error] set, and a stored
    entry in state [Success] has its [simulation] set. *)
Theorem reachable_entries_payload (c : Chrome) (x : Entry) :
  reachable c ->
  In x (stored c) ->
  (state x = Simulating -> simulation x = None /\ error x = None)
  /\ (state x = Success -> simulation x <> None).
Proof.
  intros Hreach Hin.
  assert (Hok : store_ok c).
  { clear x Hin. induction Hreach as [plan icon|c o _ IH|c plan _ IH].
    - constructor.
    - now apply run_keeps.
    - exact IH. }
  unfold store_ok in Hok. rewrite Forall_forall in Hok. exact (Hok x Hin).
Qed.

(** *** The dispatcher *)

Lemma addSimulation_available (e : Entry) (c : Chrome) :
  faults c = [] ->
  addSimulation e c = (Returned tt, with_simulations (stored c ++ [e]) c).
Proof.
  intros H.
  change (addSimulation e) with (rewrite_with (fun l : list Entry => (l ++ [e])%list)).
  now rewrite rewrite_with_available.
Qed.

Lemma fold_response_terminal (id0 : string) (r : Models.Response Sim)
      (t : TerminalWrite Sim) :
  terminal_of r = Some t -> fold_response id0 r = write id0 t.
Proof.
  unfold terminal_of, fold_response.
  destruct (Models.type r); [destruct (Models.simulation r)|..];
    intros [= <-]; reflexivity.
Qed.

(** C2, as the code has it.  With the storage calls succeeding,
    [fetchSimulationAndUpdate] first appends the [Simulating] entry of the
    request.  On a response of kind [Error], [Revert], or [Success] with a
    simulation, it returns after the matching terminal write on the
    entries of the request's id.  On a [Success] response without a
    simulation it throws [Error "Invalid state"], and when the backend
    call rejects it throws that rejection; in both cases the store holds
    the appended entry and no terminal write is made. *)
Theorem fetchSimulationAndUpdate_outcomes (args : Request.RequestArgs) (c : Chrome) :
  faults c = [] ->
  (forall r t,
      terminal_of r = Some t ->
      fetchSimulationAndUpdate args (Returned r) c =
      (Returned tt,
       with_simulations
         (map (entry_write (Request.id args) t) (stored c ++ [entry_of args])) c))
  /\ (forall r,
      Models.type r = Models.Success ->
      Models.simulation r = None ->
      fetchSimulationAndUpdate args (Returned r) c =
      (Thrown (Js.Error "Invalid state"),
       with_simulations (stored c ++ [entry_of args]) c))
  /\ (forall e,
      fetchSimulationAndUpdate args (Thrown e) c =
      (Thrown e, with_simulations (stored c ++ [entry_of args]) c)).
Proof.
  intros H.
  assert (Hadd : forall backend,
             add_and_fetch (entry_of args) backend c =
             (backend, with_simulations (stored c ++ [entry_of args]) c)).
  { intros backend. unfold add_and_fetch, Js.bind.
    now rewrite addSimulation_available. }
  split; [|split].
  - intros r t Ht. rewrite fetchSimulationAndUpdate_unfold.
    unfold Js.bind at 1. rewrite Hadd.
    rewrite (fold_response_terminal _ _ _ Ht), write_available by assumption.
    now rewrite stored_with_simulations, with_simulations_twice.
  - intros r Hty Hsim. rewrite fetchSimulationAndUpdate_unfold.
    unfold Js.bind at 1. rewrite Hadd.
    unfold fold_response. now rewrite Hty, Hsim.
  - intros e. rewrite fetchSimulationAndUpdate_unfold.
    unfold Js.bind at 1. now rewrite Hadd.
Qed.

(** A storage call that rejects is not caught either: with a backend that
    answers, the rejection of the first store call is what the dispatcher
    throws. *)
Lemma fetchSimulationAndUpdate_storage_failure
      (args : Request.RequestArgs) (r : Models.Response Sim)
      (c : Chrome) (plan : list bool) :
  faults c = true :: plan ->
  fetchSimulationAndUpdate args (Returned r) c
  = (Thrown Js.StorageFailure, with_faults plan c).
Proof.
  intros H. rewrite fetchSimulationAndUpdate_unfold.
  unfold Js.bind, add_and_fetch, addSimulation, get_simulations, sync_call, Js.bind.
  now rewrite H.
Qed.

(** *** Settings *)

(** C10.  When no settings document is stored and the storage calls
    succeed, [getSettings] returns [{disable: false}] and leaves the store
    as it is; [setSettings] goes on from the document [{disable: false}]
    with the given flag assigned; where [chrome.action] exists it returns
    with the document [{disable: args.disable}] stored.  A page script
    whose [settings.disable] is the flag [getSettings] returned wraps the
    reserved properties: interception is on. *)
Theorem settings_default_enabled (c : Chrome) :
  settings c = None ->
  faults c = [] ->
  getSettings c = (Returned {| disable := false |}, c)
  /\ (forall args,
        setSettings args c =
        (let settings := assign_disable (disable args) {| disable := false |} in
         Js.bind (updateIcon settings) (fun _ => set_settings settings)) c)
  /\ (forall args icon,
        action c = Some icon ->
        fst (setSettings args c) = Returned tt
        /\ settings (snd (setSettings args c)) = Some {| disable := disable args |}
        /\ simulations (snd (setSettings args c)) = simulations c)
  /\ (forall (env : Injected.Env Sim) s prop,
        fst (getSettings c) = Returned s ->
        Injected.settings_disable env = disable s ->
        Injected.reserved prop = true ->
        Injected.get env prop = Injected.Wrapper prop).
Proof.
  intros Hnone Hok.
  assert (Hget : get_settings c = (Returned {| disable := false |}, c)).
  { unfold get_settings, sync_call, Js.bind, Js.gets. now rewrite Hok, Hnone. }
  assert (Hset : forall args,
             setSettings args c =
             (let settings := assign_disable (disable args) {| disable := false |} in
              Js.bind (updateIcon settings) (fun _ => set_settings settings)) c).
  { intros args. unfold setSettings, Js.bind at 1. now rewrite Hget. }
  split; [exact Hget|]. split; [exact Hset|]. split.
  - intros args icon Hicon. rewrite Hset. cbn [assign_disable].
    unfold updateIcon, setIcon, set_settings, sync_call, Js.bind, Js.modify.
    cbn [disable].
    destruct (disable args); rewrite Hicon; cbn; rewrite Hok; cbn; auto.
  - intros env s prop Hs Hflag Hres. unfold getSettings in Hs.
    rewrite Hget in Hs. injection Hs as <-.
    unfold Injected.get. now rewrite Hflag, Hres.
Qed.

End StoreFacts.

(* ================================================================== *)
(** ** Facts about the proxy *)

Section ProxyFacts.
Import Injected.
Variable Sim : Type.
Variable env : Env Sim.

Local Abbreviation World := (Injected.World Sim).

Lemma bind_returned {S A B} (m : Js.M S A) (k : A -> Js.M S B) (s s' : S) (a : A) :
  m s = (Returned a, s') -> Js.bind m k s = k a s'.
Proof. intros H. unfold Js.bind. now rewrite H. Qed.

Lemma bind_thrown {S A B} (m : Js.M S A) (k : A -> Js.M S B) (s s' : S) (e : Js.Exn) :
  m s = (Thrown e, s') -> Js.bind m k s = (Thrown e, s').
Proof. intros H. unfold Js.bind. now rewrite H. Qed.

Lemma read_run (v : Js.Value) (name : string) (w : World) :
  read v name w = (Js.get v (Js.KName name), w).
Proof. reflexivity. Qed.

Lemma index_run (v : Js.Value) (i : nat) (w : World) :
  index v i w = (Js.get v (Js.KIndex i), w).
Proof. reflexivity. Qed.

Lemma is_str_true (v : Js.Value) (lit : string) :
  Js.is_str v lit = true <-> v = Js.VStr lit.
Proof.
  destruct v; cbn; try (split; [discriminate | intros [=]]).
  rewrite String.eqb_eq. split; [now intros -> | now intros [= ->]].
Qed.

Lemma is_str_false (v : Js.Value) (lit : string) :
  Js.is_str v lit = false <-> v <> Js.VStr lit.
Proof.
  rewrite <- is_str_true. destruct (Js.is_str v lit); split; congruence.
Qed.

Lemma is_num_false (v : Js.Value) (lit : Z) :
  Js.is_num v lit = false <-> v <> Js.VNum lit.
Proof.
  destruct v; cbn; try (split; [intros _; discriminate | reflexivity]).
  rewrite Z.eqb_neq. split; [intros H [= E]; auto | intros H E; apply H; now subst].
Qed.

(** The wrapper on a request whose [method] reads as [m]. *)
Lemma wrapper_method (args : list Js.Value) (w : World) (m : Js.Value)
      (k : Js.Value -> Js.M World Js.Value) :
  Js.get (Js.arg0 args) (Js.KName "method") = Returned m ->
  Js.bind (read (Js.arg0 args) "method") k w = k m w.
Proof. intros H. apply bind_returned. now rewrite read_run, H. Qed.

(** C5.  A call through the proxy, of any property, whose first argument's
    [method] reads as a value other than the three intercepted names makes
    one call of the provider's own member with the same arguments and
    settles as that call does; the request manager is not called and the
    store is the one before. *)
Theorem other_methods_forwarded
        (prop : string) (args : list Js.Value) (w : World) (method : Js.Value) :
  Js.get (Js.arg0 args) (Js.KName "method") = Returned method ->
  method <> Js.VStr "eth_signTypedData_v3" ->
  method <> Js.VStr "eth_signTypedData_v4" ->
  method <> Js.VStr "eth_sendTransaction" ->
  call env (get env prop) args w =
  (underlying env prop args,
   {| calls := calls w ++ [Forward prop args]; chrome := chrome w |}).
Proof.
  intros Hm H3 H4 Htx.
  apply is_str_false in H3, H4, Htx.
  destruct (get env prop) as [p|p] eqn:Hget;
    assert (p = prop) as ->
      by (unfold get in Hget;
          destruct (settings_disable env), (reserved prop); cbn in Hget; congruence).
  - reflexivity.
  - cbn [call]. unfold wrapper. rewrite (wrapper_method _ _ _ _ Hm).
    unfold eth_signTypedData_v3, eth_signTypedData_v4, eth_sendTransaction.
    rewrite H3, H4, Htx. reflexivity.
Qed.

(** C6.  A call through the proxy whose [method] is [eth_sendTransaction]
    and whose [params] has a [length] other than 1, or whose [method] is
    [eth_signTypedData_v3] or [eth_signTypedData_v4] and whose [params] has
    a [length] other than 2, makes one call of the provider's own member
    with the same arguments and settles as that call does; the request
    manager is not called and the store is the one before. *)
Theorem unexpected_params_length_forwarded
        (prop : string) (args : list Js.Value) (w : World) (params len : Js.Value) :
  Js.get (Js.arg0 args) (Js.KName "params") = Returned params ->
  Js.get params (Js.KName "length") = Returned len ->
  (Js.get (Js.arg0 args) (Js.KName "method") = Returned (Js.VStr "eth_sendTransaction")
   /\ len <> Js.VNum 1)
  \/ ((Js.get (Js.arg0 args) (Js.KName "method") = Returned (Js.VStr "eth_signTypedData_v3")
       \/ Js.get (Js.arg0 args) (Js.KName "method")
          = Returned (Js.VStr "eth_signTypedData_v4"))
      /\ len <> Js.VNum 2) ->
  call env (get env prop) args w =
  (underlying env prop args,
   {| calls := calls w ++ [Forward prop args]; chrome := chrome w |}).
Proof.
  intros Hp Hl Hcase.
  destruct (get env prop) as [p|p] eqn:Hget;
    assert (p = prop) as ->
      by (unfold get in Hget;
          destruct (settings_disable env), (reserved prop); cbn in Hget; congruence).
  - reflexivity.
  - cbn [call]. unfold wrapper.
    destruct Hcase as [[Hm Hlen] | [[Hm | Hm] Hlen]];
      apply is_num_false in Hlen;
      rewrite (wrapper_method _ _ _ _ Hm); cbn -[read originalCall];
      rewrite (bind_returned _ _ w w params) by (now rewrite read_run, Hp);
      rewrite (bind_returned _ _ w w len) by (now rewrite read_run, Hl);
      rewrite Hlen; reflexivity.
Qed.


Lemma get_wrapper (prop : string) :
  settings_disable env = false -> reserved prop = true -> get env prop = Wrapper prop.
Proof. intros Hs Hr. unfold get. now rewrite Hs, Hr. Qed.

(** C1.  With interception enabled and a reserved property, a call whose
    [method] is [eth_sendTransaction] and whose [params] is an array of
    exactly one element, for which the chain id query answers and the
    request manager decides [Reject], throws the user-rejected-request
    error (code 4001) with the message
    'PocketUniverse Tx Signature: User denied transaction signature.'.
    The calls made are the chain id query on the target and the request to
    the manager, in that order: the original call is not among them. *)
Theorem rejected_transaction_throws
        (prop : string) (args : list Js.Value) (w : World)
        (tx chainId : Js.Value) (c' : Storage.Chrome Sim) :
  settings_disable env = false ->
  reserved prop = true ->
  Js.get (Js.arg0 args) (Js.KName "method") = Returned (Js.VStr "eth_sendTransaction") ->
  Js.get (Js.arg0 args) (Js.KName "params") = Returned (Js.VArr [tx]) ->
  target_request env chainId_query = Returned chainId ->
  manager_request env (Request.Transaction chainId tx) (chrome w)
  = (Returned Request.Reject, c') ->
  call env (get env prop) args w =
  (Thrown (Js.ProviderError 4001
             "PocketUniverse Tx Signature: User denied transaction signature."),
   {| calls := calls w ++ [TargetRequest chainId_query;
                           Dispatch (Request.Transaction chainId tx)];
      chrome := c' |})
  /\ (forall p a,
        In (Forward p a) (calls (snd (call env (get env prop) args w))) ->
        In (Forward p a) (calls w)).
Proof.
  intros Hs Hr Hm Hp Hc Hd.
  assert (Hrun : call env (get env prop) args w =
                 (Thrown (Js.ProviderError 4001
                            "PocketUniverse Tx Signature: User denied transaction signature."),
                  {| calls := calls w ++ [TargetRequest chainId_query;
                                          Dispatch (Request.Transaction chainId tx)];
                     chrome := c' |})).
  { rewrite get_wrapper by assumption. cbn [call]. unfold wrapper.
    rewrite (wrapper_method _ _ _ _ Hm). cbn -[read index request_chainId request_manager].
    rewrite (bind_returned _ _ w w (Js.VArr [tx])) by (now rewrite read_run, Hp).
    rewrite (bind_returned _ _ w w (Js.VNum 1)) by reflexivity.
    cbn -[index request_chainId request_manager].
    rewrite (bind_returned _ _ w (record (TargetRequest chainId_query) w) chainId)
      by (unfold request_chainId; now rewrite Hc).
    rewrite (bind_returned _ _ _ (record (TargetRequest chainId_query) w) tx)
      by reflexivity.
    rewrite (bind_returned _ _ _
               {| calls := calls w ++ [TargetRequest chainId_query;
                                       Dispatch (Request.Transaction chainId tx)];
                  chrome := c' |} Request.Reject).
    - reflexivity.
    - unfold request_manager. cbn [record chrome calls]. rewrite Hd.
      now rewrite <- app_assoc. }
  split; [exact Hrun|].
  intros p a. rewrite Hrun. cbn [snd calls]. rewrite in_app_iff.
  intros [H | [H | [H | []]]]; [exact H | discriminate | discriminate].
Qed.

(** C8.  With interception enabled, the proxy hands out the wrapper for a
    reserved property, and the wrapper reads [method] off its first
    argument before anything else: when that read throws, the call throws
    the same and nothing was called, the provider's own member included.
    A call with no argument, and a call whose first argument is [null],
    throw a [TypeError] this way. *)
Theorem wrapper_reads_method_first (prop : string) (w : World) :
  settings_disable env = false ->
  reserved prop = true ->
  get env prop = Wrapper prop
  /\ (forall args e,
        Js.get (Js.arg0 args) (Js.KName "method") = Thrown e ->
        call env (get env prop) args w = (Thrown e, w))
  /\ call env (get env prop) [] w = (Thrown Js.TypeError, w)
  /\ (forall rest, call env (get env prop) (Js.VNull :: rest) w = (Thrown Js.TypeError, w)).
Proof.
  intros Hs Hr. rewrite get_wrapper by assumption.
  assert (Hthrow : forall args e,
             Js.get (Js.arg0 args) (Js.KName "method") = Thrown e ->
             call env (Wrapper prop) args w = (Thrown e, w)).
  { intros args e He. cbn [call]. unfold wrapper.
    apply bind_thrown. now rewrite read_run, He. }
  split; [reflexivity|]. split; [exact Hthrow|].
  split; [|intros rest]; now apply Hthrow.
Qed.

End ProxyFacts.

(* ================================================================== *)
(** ** Facts about the [window.ethereum] accessors *)

Section BindingFacts.
Import Injected.

Lemma ethereum_get_clean (b : Binding) :
  providerChanged b = false -> ethereum_get b = (Returned (cachedProxy b), b).
Proof.
  intros H. unfold ethereum_get, Js.bind, Js.gets, Js.ret. now rewrite H.
Qed.

Lemma ethereum_get_rebuilds (b : Binding) :
  providerChanged b = true ->
  Js.is_object (currentProvider b) = true ->
  ethereum_get b =
  (Returned (Some (List.length (proxies b))),
   {| currentProvider := currentProvider b;
      cachedProxy := Some (List.length (proxies b));
      providerChanged := false;
      proxies := proxies b ++ [currentProvider b] |}).
Proof.
  intros H Ho. unfold ethereum_get, rebuild, Js.bind, Js.gets, Js.ret.
  now rewrite H, Ho.
Qed.

Lemma ethereum_get_fails (b : Binding) :
  providerChanged b = true ->
  Js.is_object (currentProvider b) = false ->
  ethereum_get b = (Thrown Js.TypeError, b).
Proof.
  intros H Ho. unfold ethereum_get, rebuild, Js.bind, Js.gets, Js.ret.
  now rewrite H, Ho.
Qed.

Lemma ethereum_get_again (b : Binding) :
  ethereum_get (snd (ethereum_get b)) = ethereum_get b.
Proof.
  destruct (providerChanged b) eqn:H.
  - destruct (Js.is_object (currentProvider b)) eqn:Ho.
    + rewrite (ethereum_get_rebuilds b H Ho). cbn [snd].
      now rewrite ethereum_get_clean.
    + rewrite (ethereum_get_fails b H Ho). cbn [snd].
      now apply ethereum_get_fails.
  - rewrite (ethereum_get_clean b H). cbn [snd].
    now apply ethereum_get_clean.
Qed.

Lemma reread_clean (k : nat) (b : Binding) :
  providerChanged b = false -> reread k b = b.
Proof.
  intros H. induction k as [|k IH]; [reflexivity|].
  change (reread (S k) b) with (snd (ethereum_get (reread k b))).
  rewrite IH. now rewrite ethereum_get_clean.
Qed.

Lemma target_of_last (l : list Js.Value) (v : Js.Value) :
  nth_error (l ++ [v]) (List.length l) = Some v.
Proof. rewrite nth_error_app2 by lia. now rewrite Nat.sub_diag. Qed.

Lemma access_cache_built (a : Access) (b : Binding) :
  cache_built b -> cache_built (access a b).
Proof.
  intros Hb. destruct a as [|p]; cbn [access].
  - destruct (providerChanged b) eqn:H.
    + destruct (Js.is_object (currentProvider b)) eqn:Ho.
      * rewrite (ethereum_get_rebuilds b H Ho). unfold cache_built, target_of. cbn.
        split.
        -- intros n [= <-]. rewrite length_app. cbn. lia.
        -- intros _. exists (List.length (proxies b)).
           split; [reflexivity | apply target_of_last].
      * now rewrite (ethereum_get_fails b H Ho).
    + now rewrite (ethereum_get_clean b H).
  - destruct Hb as [Hb _]. split; [exact Hb | discriminate].
Qed.

Lemma after_cache_built (history : list Access) (ethereum : Js.Value) :
  cache_built (after history ethereum).
Proof.
  unfold after.
  assert (G : forall b, cache_built b ->
                        cache_built (fold_left (fun b a => access a b) history b)).
  { induction history as [|a history IH]; intros b Hb; cbn; [exact Hb|].
    apply IH, access_cache_built, Hb. }
  apply G. split; cbn; [discriminate | discriminate].
Qed.

(** C4, as the code has it.  In every state the accessors lead to from the
    installed one, a second read settles as the first did and leaves the
    state the first left; when the current provider is an object, both
    return the same wrapper, a wrapper of it.  After [set(newProvider)],
    for an object [newProvider], the flag is set and the next read returns
    a wrapper that wraps [newProvider], that was not built before and is
    not the one cached before, and clears the flag; every later read with
    no [set] in between returns that wrapper.  (For a provider that is not
    an object no wrapper exists: the [Proxy] constructor throws.) *)
Theorem provider_wrapper_cached
        (history : list Access) (ethereum newProvider : Js.Value) :
  Js.is_object newProvider = true ->
  let b := after history ethereum in
  let b1 := snd (ethereum_set newProvider b) in
  let b2 := snd (ethereum_get b1) in
  ethereum_get (snd (ethereum_get b)) = ethereum_get b
  /\ (Js.is_object (currentProvider b) = true ->
      exists n, fst (ethereum_get b) = Returned (Some n)
                /\ target_of (snd (ethereum_get b)) n = Some (currentProvider b))
  /\ providerChanged b1 = true
  /\ providerChanged b2 = false
  /\ exists n,
      fst (ethereum_get b1) = Returned (Some n)
      /\ target_of b2 n = Some newProvider
      /\ target_of b n = None
      /\ cachedProxy b <> Some n
      /\ forall k, ethereum_get (reread k b2) = (Returned (Some n), b2).
Proof.
  intros Ho b b1 b2.
  pose proof (after_cache_built history ethereum) as [Hlt Hclean].
  fold b in Hlt, Hclean.
  assert (Hb1 : ethereum_get b1 =
                (Returned (Some (List.length (proxies b))),
                 {| currentProvider := newProvider;
                    cachedProxy := Some (List.length (proxies b));
                    providerChanged := false;
                    proxies := proxies b ++ [newProvider] |})).
  { subst b1. cbn [ethereum_set Js.modify snd].
    now rewrite ethereum_get_rebuilds. }
  split; [apply ethereum_get_again|].
  split.
  { intros Hcur. destruct (providerChanged b) eqn:Hflag.
    - rewrite (ethereum_get_rebuilds b Hflag Hcur). cbn [fst snd].
      exists (List.length (proxies b)). split; [reflexivity|].
      unfold target_of. cbn [proxies]. apply target_of_last.
    - rewrite (ethereum_get_clean b Hflag). cbn [fst snd].
      destruct (Hclean eq_refl) as [n [Hn Ht]]. exists n. now rewrite Hn. }
  split; [reflexivity|].
  subst b2. rewrite Hb1. cbn [snd fst providerChanged].
  split; [reflexivity|].
  exists (List.length (proxies b)).
  split; [reflexivity|]. split; [|split; [|split]].
  - unfold target_of. cbn [proxies]. apply target_of_last.
  - unfold target_of. apply nth_error_None. lia.
  - intros E. apply Hlt in E. lia.
  - intros k. rewrite reread_clean by reflexivity.
    now rewrite ethereum_get_clean.
Qed.

End BindingFacts.

(* ================================================================== *)
(** ** Concrete runs *)

Lemma terminal_writes_witness :
  Storage.faults Runs.two_entries = []
  /\ forall t,
      Lifecycle.write "a" t (snd (Lifecycle.write "a" t Runs.two_entries))
      = (Returned tt, snd (Lifecycle.write "a" t Runs.two_entries)).
Proof.
  split; [reflexivity|].
  exact (proj1 (proj2 (terminal_writes_idempotent_last_wins
                         string Runs.two_entries "a" eq_refl))).
Defined.

Lemma updateSimulationState_witness :
  Storage.faults Runs.two_entries = []
  /\ fst (Storage.updateSimulationState "b" Storage.Confirmed Runs.two_entries)
     = Returned tt.
Proof.
  split; [reflexivity|].
  exact (proj1 (updateSimulationState_changes_only_state
                  string Runs.two_entries "b" Storage.Confirmed eq_refl)).
Defined.

(** A dispatch that succeeds, then the user's confirmation: the entry is
    [Confirmed] and still holds the simulation. *)
Lemma confirmed_entry_keeps_simulation :
  exists (c : Storage.Chrome string) (x : Storage.StoredSimulation string),
    Lifecycle.reachable c
    /\ In x (Storage.stored c)
    /\ Storage.simulation x <> None
    /\ Storage.state x <> Storage.Success.
Proof.
  exists (snd (Lifecycle.run (Lifecycle.Decide "a" true)
                 (snd (Lifecycle.run
                         (Lifecycle.Dispatch Runs.send_args (Returned Runs.success_response))
                         (Lifecycle.fresh [] None))))).
  exists {| Storage.id := "a"; Storage.type := Storage.Simulation;
            Storage.state := Storage.Confirmed;
            Storage.simulation := Some "receive 1 NFT"; Storage.error := None |}.
  split; [do 2 apply Lifecycle.reach_run; apply Lifecycle.reach_fresh|].
  split; [now left|]. split; discriminate.
Qed.

Lemma reachable_entries_payload_witness :
  let c := snd (Lifecycle.run
                  (Lifecycle.Dispatch Runs.send_args (Returned Runs.success_response))
                  (Lifecycle.fresh [] None)) in
  let x := {| Storage.id := "a"; Storage.type := Storage.Simulation;
              Storage.state := Storage.Success;
              Storage.simulation := Some "receive 1 NFT"; Storage.error := None |} in
  Lifecycle.reachable c /\ In x (Storage.stored c) /\ Storage.simulation x <> None.
Proof.
  intros c x.
  assert (Hc : Lifecycle.reachable c)
    by (apply Lifecycle.reach_run, Lifecycle.reach_fresh).
  assert (Hx : In x (Storage.stored c)) by (now left).
  split; [exact Hc|]. split; [exact Hx|].
  exact (proj2 (reachable_entries_payload string c x Hc Hx) eq_refl).
Defined.

(** A [Revert] response need not carry a message: the entry is [Revert]
    with no [error]. *)
Lemma revert_without_message :
  Storage.stored
    (snd (Storage.fetchSimulationAndUpdate
            Runs.send_args
            (Returned {| Models.type := Models.Revert; Models.simulation := None;
                         Models.error := None |})
            (Lifecycle.fresh (Sim:=string) [] None)))
  = [ {| Storage.id := "a"; Storage.type := Storage.Simulation;
         Storage.state := Storage.Revert;
         Storage.simulation := None; Storage.error := None |} ].
Proof. reflexivity. Qed.

(** A [Success] response without a simulation: the dispatcher throws, and
    the entry it added stays in state [Simulating]. *)
Lemma fetchSimulationAndUpdate_throws_invalid_state :
  Storage.fetchSimulationAndUpdate
    Runs.send_args (Returned Runs.success_without_simulation) (Lifecycle.fresh [] None)
  = (Thrown (Js.Error "Invalid state"),
     {| Storage.simulations :=
          Some [ {| Storage.id := "a"; Storage.type := Storage.Simulation;
                    Storage.state := Storage.Simulating;
                    Storage.simulation := None; Storage.error := None |} ];
        Storage.settings := None; Storage.faults := []; Storage.action := None |}).
Proof. reflexivity. Qed.

Lemma fetchSimulationAndUpdate_outcomes_witness :
  Storage.faults Runs.two_entries = []
  /\ forall e,
      fst (Storage.fetchSimulationAndUpdate Runs.send_args (Thrown e) Runs.two_entries)
      = Thrown e.
Proof.
  split; [reflexivity|].
  intros e.
  now rewrite (proj2 (proj2 (fetchSimulationAndUpdate_outcomes
                               string Runs.send_args Runs.two_entries eq_refl)) e).
Defined.

Lemma settings_default_witness :
  Storage.settings Runs.two_entries = None
  /\ Storage.faults Runs.two_entries = []
  /\ Storage.getSettings Runs.two_entries
     = (Returned {| Storage.disable := false |}, Runs.two_entries).
Proof.
  split; [reflexivity|]. split; [reflexivity|].
  exact (proj1 (settings_default_enabled string Runs.two_entries eq_refl eq_refl)).
Defined.

Lemma other_methods_witness :
  let args := [Runs.request_of "eth_accounts" []] in
  Js.get (Js.arg0 args) (Js.KName "method") = Returned (Js.VStr "eth_accounts")
  /\ Injected.call Runs.vetoing (Injected.get Runs.vetoing "request") args Runs.page_world
     = (Returned Js.VNull,
        {| Injected.calls := [Injected.Forward "request" args];
           Injected.chrome := Runs.two_entries |}).
Proof.
  intros args. split; [reflexivity|].
  apply (other_methods_forwarded string Runs.vetoing "request" args Runs.page_world
           (Js.VStr "eth_accounts"));
    [reflexivity | discriminate | discriminate | discriminate].
Defined.

Lemma unexpected_params_length_witness :
  let args := [Runs.request_of "eth_sendTransaction" [Js.VObj []; Js.VObj []]] in
  Js.get (Js.arg0 args) (Js.KName "params") = Returned (Js.VArr [Js.VObj []; Js.VObj []])
  /\ Injected.call Runs.vetoing (Injected.get Runs.vetoing "request") args Runs.page_world
     = (Returned Js.VNull,
        {| Injected.calls := [Injected.Forward "request" args];
           Injected.chrome := Runs.two_entries |}).
Proof.
  intros args. split; [reflexivity|].
  apply (unexpected_params_length_forwarded
           string Runs.vetoing "request" args Runs.page_world
           (Js.VArr [Js.VObj []; Js.VObj []]) (Js.VNum 2));
    [reflexivity | reflexivity | left; split; [reflexivity | discriminate]].
Defined.

Lemma rejected_transaction_witness :
  let args := [Runs.request_of "eth_sendTransaction" [Js.VObj []]] in
  Injected.manager_request Runs.vetoing
    (Request.Transaction (Js.VStr "0x1") (Js.VObj [])) Runs.two_entries
  = (Returned Request.Reject, Runs.two_entries)
  /\ fst (Injected.call Runs.vetoing (Injected.get Runs.vetoing "request") args
            Runs.page_world)
     = Thrown (Js.ProviderError 4001
                 "PocketUniverse Tx Signature: User denied transaction signature.").
Proof.
  intros args. split; [reflexivity|].
  now rewrite (proj1 (rejected_transaction_throws
                        string Runs.vetoing "request" args Runs.page_world
                        (Js.VObj []) (Js.VStr "0x1") Runs.two_entries
                        eq_refl eq_refl eq_refl eq_refl eq_refl eq_refl)).
Defined.

Lemma wrapper_reads_method_witness :
  Injected.settings_disable Runs.vetoing = false
  /\ Injected.reserved "sendAsync" = true
  /\ Injected.call Runs.vetoing (Injected.get Runs.vetoing "sendAsync") [] Runs.page_world
     = (Thrown Js.TypeError, Runs.page_world).
Proof.
  split; [reflexivity|]. split; [reflexivity|].
  exact (proj1 (proj2 (proj2 (wrapper_reads_method_first
                                string Runs.vetoing "sendAsync" Runs.page_world
                                eq_refl eq_refl)))).
Defined.

Lemma provider_wrapper_witness :
  let metamask := Js.VObj [("isMetaMask", Js.VBool true)] in
  let other := Js.VObj [("isCoinbaseWallet", Js.VBool true)] in
  let b := Injected.after [Injected.Get; Injected.Get] metamask in
  Js.is_object other = true
  /\ Injected.ethereum_get (snd (Injected.ethereum_get b)) = Injected.ethereum_get b.
Proof.
  intros metamask other b. split; [reflexivity|].
  exact (proj1 (provider_wrapper_cached [Injected.Get; Injected.Get] metamask other eq_refl)).
Defined.

(** No wallet at load time: [window.ethereum] is [undefined] when the
    script runs, and both reads of the property throw instead of returning
    a wrapper.  The same after a page has written [undefined] over a
    provider that was wrapped before. *)
Lemma absent_provider_reads_throw :
  let b := Injected.installed Js.VUndefined in
  let metamask := Js.VObj [("isMetaMask", Js.VBool true)] in
  let b1 := snd (Injected.ethereum_set Js.VUndefined
                   (Injected.after [Injected.Get] metamask)) in
  Injected.ethereum_get b = (Thrown Js.TypeError, b)
  /\ Injected.ethereum_get (snd (Injected.ethereum_get b)) = (Thrown Js.TypeError, b)
  /\ Injected.ethereum_get b1 = (Thrown Js.TypeError, b1)
  /\ Injected.providerChanged (snd (Injected.ethereum_get b1)) = true.
Proof. repeat split. Qed.

(* ================================================================== *)
(** ** More about the store *)

Section MoreStoreFacts.
Import Storage Lifecycle.
Variable Sim : Type.

Local Abbreviation Chrome := (Storage.Chrome Sim).
Local Abbreviation Entry := (Storage.StoredSimulation Sim).

Lemma rewrite_with_outcome (f : list Entry -> list Entry) (c : Chrome) :
  settings (snd (rewrite_with f c)) = settings c
  /\ action (snd (rewrite_with f c)) = action c
  /\ ((fst (rewrite_with f c) = Returned tt
       /\ stored (snd (rewrite_with f c)) = f (stored c))
      \/ (fst (rewrite_with f c) = Thrown Js.StorageFailure
          /\ stored (snd (rewrite_with f c)) = stored c)).
Proof.
  unfold rewrite_with, get_simulations, set_simulations, sync_call,
    Js.bind, Js.gets, Js.modify.
  destruct c as [sims sets plan icon]; cbn.
  destruct plan as [|[] [|[] plan]]; cbn; auto.
Qed.

Lemma run_image (o : Op Sim) (f : list Entry -> list Entry) :
  Ops.image o = Some f -> run o = rewrite_with f.
Proof.
  destruct o as [args backend|id0 kind|id0 t|id0 confirmed|id0|]; cbn;
    intros [= <-]; try reflexivity.
  apply write_is_rewrite.
Qed.

Lemma needs_removal_needs_action (st : StoredSimulationState) :
  negb (needs_removal st) = simulationNeedsAction st.
Proof. destruct st; reflexivity. Qed.

Lemma removeSimulation_available (id0 : string) (c : Chrome) :
  faults c = [] ->
  removeSimulation id0 c =
  (Returned tt,
   with_simulations (filter (fun x : Entry => negb (String.eqb (id x) id0)) (stored c)) c).
Proof.
  intros H.
  change (removeSimulation id0)
    with (rewrite_with (filter (fun x : Entry => negb (String.eqb (id x) id0)))).
  now rewrite rewrite_with_available.
Qed.

Lemma clearOldSimulations_available (c : Chrome) :
  faults c = [] ->
  clearOldSimulations c =
  (Returned tt,
   with_simulations (filter (fun x : Entry => negb (needs_removal (state x))) (stored c)) c).
Proof.
  intros H.
  change (@clearOldSimulations Sim)
    with (rewrite_with (filter (fun x : Entry => negb (needs_removal (state x))))).
  now rewrite rewrite_with_available.
Qed.

Lemma updateSimulationState_available (id0 : string) (st : StoredSimulationState)
      (c : Chrome) :
  faults c = [] ->
  updateSimulationState id0 st c =
  (Returned tt, with_simulations (map (state_entry id0 st) (stored c)) c).
Proof.
  intros H. rewrite updateSimulationState_is_rewrite.
  now rewrite rewrite_with_available.
Qed.

Lemma filter_idem (p : Entry -> bool) (l : list Entry) :
  filter p (filter p l) = filter p l.
Proof.
  induction l as [|x l IH]; cbn; [reflexivity|].
  destruct (p x) eqn:E; cbn; [rewrite E; now f_equal | exact IH].
Qed.

Lemma filter_all (p : Entry -> bool) (l : list Entry) :
  (forall x, In x l -> p x = true) -> filter p l = l.
Proof.
  induction l as [|x l IH]; intros H; cbn; [reflexivity|].
  rewrite (H x) by now left. f_equal. apply IH. intros y Hy. apply H. now right.
Qed.

Lemma id_neq_negb (x : Entry) (id0 : string) :
  negb (String.eqb (id x) id0) = true <-> id x <> id0.
Proof. rewrite negb_true_iff. apply String.eqb_neq. Qed.

(** X1.  With the storage calls succeeding, [addSimulation] returns and puts
    the new entry last: the entries stored before keep their positions, the
    new one follows them.  On a store never written the sequence is the new
    entry alone. *)
Theorem addSimulation_appends_last (e : Entry) (c : Chrome) :
  faults c = [] ->
  fst (addSimulation e c) = Returned tt
  /\ List.length (stored (snd (addSimulation e c))) = S (List.length (stored c))
  /\ nth_error (stored (snd (addSimulation e c))) (List.length (stored c)) = Some e
  /\ (forall n x, nth_error (stored c) n = Some x ->
                  nth_error (stored (snd (addSimulation e c))) n = Some x)
  /\ (simulations c = None -> simulations (snd (addSimulation e c)) = Some [e]).
Proof.
  intros H. rewrite addSimulation_available by assumption. cbn [fst snd].
  rewrite stored_with_simulations.
  split; [reflexivity|]. split; [rewrite length_app; cbn; lia|].
  split; [rewrite nth_error_app2 by lia; now rewrite Nat.sub_diag|].
  split.
  - intros n x Hn. rewrite nth_error_app1; [exact Hn|].
    apply nth_error_Some. congruence.
  - intros Hnone. unfold stored. rewrite Hnone. reflexivity.
Qed.

(** X2.  With the storage calls succeeding, [removeSimulation id0] returns
    and removes every entry whose id is [id0], duplicates included, and no
    other: an entry is stored afterwards exactly when it was stored before
    with another id, and the entries of other ids keep their order. *)
Theorem removeSimulation_removes_all_of_id (id0 : string) (c : Chrome) :
  faults c = [] ->
  fst (removeSimulation id0 c) = Returned tt
  /\ (forall x, In x (stored (snd (removeSimulation id0 c)))
                <-> In x (stored c) /\ id x <> id0)
  /\ (forall p : Entry -> bool,
         (forall x, p x = true -> id x <> id0) ->
         filter p (stored (snd (removeSimulation id0 c))) = filter p (stored c)).
Proof.
  intros H. rewrite removeSimulation_available by assumption. cbn [fst snd].
  rewrite stored_with_simulations.
  split; [reflexivity|]. split.
  - intros x. rewrite filter_In, id_neq_negb. reflexivity.
  - intros p Hp. induction (stored c) as [|x l IH]; cbn; [reflexivity|].
    destruct (String.eqb (id x) id0) eqn:E; cbn.
    + destruct (p x) eqn:Epx; [|exact IH].
      apply Hp in Epx. apply String.eqb_eq in E. contradiction.
    + now rewrite IH.
Qed.

(** X3.  With the storage calls succeeding and no stored entry of the id,
    adding an entry and then removing its id gives back the stored sequence
    as it was. *)
Theorem add_then_remove_restores (e : Entry) (c : Chrome) :
  faults c = [] ->
  (forall x, In x (stored c) -> id x <> id e) ->
  stored (snd (removeSimulation (id e) (snd (addSimulation e c)))) = stored c.
Proof.
  intros H Hfresh. rewrite addSimulation_available by assumption. cbn [snd].
  rewrite removeSimulation_available by assumption. cbn [snd].
  rewrite !stored_with_simulations, filter_app. cbn.
  rewrite String.eqb_refl. cbn. rewrite app_nil_r.
  apply filter_all. intros x Hx. apply id_neq_negb. now apply Hfresh.
Qed.

(** X4.  With the storage calls succeeding, [clearOldSimulations] returns
    and keeps exactly the entries that need action: an entry is stored
    afterwards exactly when it was stored before and
    [simulationNeedsAction] holds of its state.  Running it a second time
    changes nothing. *)
Theorem clearOldSimulations_keeps_what_needs_action (c : Chrome) :
  faults c = [] ->
  fst (clearOldSimulations c) = Returned tt
  /\ (forall x, In x (stored (snd (clearOldSimulations c)))
                <-> In x (stored c) /\ simulationNeedsAction (state x) = true)
  /\ clearOldSimulations (snd (clearOldSimulations c))
     = (Returned tt, snd (clearOldSimulations c)).
Proof.
  intros H. rewrite clearOldSimulations_available by assumption. cbn [fst snd].
  split; [reflexivity|]. split.
  - intros x. rewrite stored_with_simulations, filter_In.
    now rewrite needs_removal_needs_action.
  - rewrite clearOldSimulations_available by assumption.
    now rewrite stored_with_simulations, with_simulations_twice, filter_idem.
Qed.

(** X5.  With the storage calls succeeding, the user's decision on an id
    ([updateSimulationState] to [Confirmed] or [Rejected]) followed by
    [clearOldSimulations] leaves exactly the entries of other ids that need
    action: every entry of the decided id is gone. *)
Theorem decision_then_cleanup_drops_id (id0 : string) (confirmed : bool) (c : Chrome) :
  faults c = [] ->
  forall x,
    In x (stored (snd (clearOldSimulations
                         (snd (updateSimulationState
                                 id0 (if confirmed then Confirmed else Rejected) c)))))
    <-> In x (stored c) /\ id x <> id0 /\ simulationNeedsAction (state x) = true.
Proof.
  intros H x. rewrite updateSimulationState_available by assumption. cbn [snd].
  rewrite clearOldSimulations_available by assumption. cbn [snd].
  rewrite !stored_with_simulations, filter_In, in_map_iff, needs_removal_needs_action.
  split.
  - intros [[y [<- Hy]] Hst]. unfold state_entry in *.
    destruct (String.eqb (id y) id0) eqn:E.
    + destruct confirmed; discriminate.
    + apply String.eqb_neq in E. auto.
  - intros [Hx [Hid Hst]]. split; [|exact Hst].
    exists x. split; [|exact Hx].
    unfold state_entry. apply String.eqb_neq in Hid. now rewrite Hid.
Qed.

(** X6.  With the storage calls succeeding, a terminal write brings every
    entry of its id into a state that needs action, whatever its state was,
    [Confirmed] and [Rejected] included: the cleanup that follows keeps the
    rewritten entry. *)
Theorem terminal_write_needs_action_again
        (id0 : string) (t : TerminalWrite Sim) (c : Chrome) (x : Entry) :
  faults c = [] ->
  In x (stored c) ->
  id x = id0 ->
  simulationNeedsAction (state (entry_write id0 t x)) = true
  /\ In (entry_write id0 t x)
        (stored (snd (clearOldSimulations (snd (write id0 t c))))).
Proof.
  intros H Hx Hid.
  assert (Hst : simulationNeedsAction (state (entry_write id0 t x)) = true).
  { destruct (entry_write_hit Sim id0 t x Hid) as [-> _]. now destruct t. }
  split; [exact Hst|].
  rewrite write_available by assumption. cbn [snd].
  rewrite clearOldSimulations_available by assumption. cbn [snd].
  rewrite !stored_with_simulations, filter_In, needs_removal_needs_action.
  split; [now apply in_map | exact Hst].
Qed.

(** X7.  With the storage calls succeeding, of two [updateSimulationState]
    calls for one id the later decides: the store after both is the store
    after the later alone. *)
Theorem updateSimulationState_later_decides
        (id0 : string) (st1 st2 : StoredSimulationState) (c : Chrome) :
  faults c = [] ->
  updateSimulationState id0 st2 (snd (updateSimulationState id0 st1 c))
  = updateSimulationState id0 st2 c.
Proof.
  intros H. rewrite (updateSimulationState_available id0 st1) by assumption.
  cbn [snd]. rewrite !updateSimulationState_available by assumption.
  rewrite stored_with_simulations, with_simulations_twice, map_map.
  do 2 f_equal. apply map_ext. intros x. unfold state_entry.
  destruct (String.eqb (id x) id0) eqn:E; cbn; now rewrite E.
Qed.

Lemma entry_write_commute (id1 id2 : string) (t1 t2 : TerminalWrite Sim) (x : Entry) :
  id1 <> id2 ->
  entry_write id2 t2 (entry_write id1 t1 x) = entry_write id1 t1 (entry_write id2 t2 x).
Proof.
  intros Hne. destruct (string_dec (id x) id1) as [E1|E1].
  - assert (E2 : id x <> id2) by congruence.
    rewrite (entry_write_miss Sim id2 t2 x E2).
    apply entry_write_miss. now rewrite entry_write_id.
  - rewrite (entry_write_miss Sim id1 t1 x E1).
    symmetry. apply entry_write_miss. now rewrite entry_write_id.
Qed.

(** X8.  With the storage calls succeeding, terminal writes for two
    different ids do not disturb each other: either order leaves the same
    store. *)
Theorem terminal_writes_of_different_ids_commute
        (id1 id2 : string) (t1 t2 : TerminalWrite Sim) (c : Chrome) :
  faults c = [] ->
  id1 <> id2 ->
  snd (write id2 t2 (snd (write id1 t1 c))) = snd (write id1 t1 (snd (write id2 t2 c))).
Proof.
  intros H Hne.
  rewrite (write_available Sim id1 t1 c H), (write_available Sim id2 t2 c H).
  cbn [snd]. rewrite !write_available by assumption. cbn [snd].
  rewrite !stored_with_simulations, !with_simulations_twice, !map_map.
  f_equal. apply map_ext. intros x. now apply entry_write_commute.
Qed.

End MoreStoreFacts.

(* ================================================================== *)
(** ** Storage failures, the dispatcher, settings *)

Section DispatchFacts.
Import Storage Lifecycle.
Variable Sim : Type.

Local Abbreviation Chrome := (Storage.Chrome Sim).
Local Abbreviation Entry := (Storage.StoredSimulation Sim).

(** X9.  Whatever storage calls fail, an operation that is one
    read-modify-write of the store (add, terminal write, state update,
    removal, cleanup) is all or nothing: it returns with the stored sequence
    replaced by its image, or it throws the storage failure with the stored
    sequence as it was.  The settings document is not touched either way. *)
Theorem store_operation_all_or_nothing
        (o : Op Sim) (f : list Entry -> list Entry) (c : Chrome) :
  Ops.image o = Some f ->
  settings (snd (run o c)) = settings c
  /\ ((fst (run o c) = Returned tt /\ stored (snd (run o c)) = f (stored c))
      \/ (fst (run o c) = Thrown Js.StorageFailure
          /\ stored (snd (run o c)) = stored c)).
Proof.
  intros Hf. rewrite (run_image Sim o f Hf).
  destruct (rewrite_with_outcome Sim f c) as [Hs [_ Hcases]].
  split; assumption.
Qed.

Lemma fst_bind {S A B} (m : Js.M S A) (k : A -> Js.M S B) (s : S) :
  fst (Js.bind m k s) =
  match fst (m s) with
  | Returned a => fst (k a (snd (m s)))
  | Thrown e => Thrown e
  end.
Proof. unfold Js.bind. destruct (m s) as [[a|e] s']; reflexivity. Qed.

Lemma add_and_fetch_outcome (e : Entry) (backend : Outcome (Models.Response Sim))
      (c : Chrome) :
  (fst (add_and_fetch e backend c) = backend
   /\ stored (snd (add_and_fetch e backend c)) = (stored c ++ [e])%list)
  \/ (fst (add_and_fetch e backend c) = Thrown Js.StorageFailure
      /\ stored (snd (add_and_fetch e backend c)) = stored c).
Proof.
  unfold add_and_fetch.
  change (addSimulation e) with (rewrite_with (fun l : list Entry => (l ++ [e])%list)).
  destruct (rewrite_with_outcome Sim (fun l : list Entry => (l ++ [e])%list) c)
    as [_ [_ [[Hr Hs] | [Hr Hs]]]];
    unfold Js.bind, Js.settle;
    destruct (rewrite_with (fun l : list Entry => (l ++ [e])%list) c) as [[[]|err] c1];
    cbn in *; try discriminate; auto.
  injection Hr as ->. auto.
Qed.

Lemma fold_response_outcome (id0 : string) (r : Models.Response Sim) (c : Chrome) :
  (exists e, fst (fold_response id0 r c) = Thrown e
             /\ stored (snd (fold_response id0 r c)) = stored c)
  \/ (fst (fold_response id0 r c) = Returned tt
      /\ (stored (snd (fold_response id0 r c)) = stored c
          \/ exists t, terminal_of r = Some t
                       /\ stored (snd (fold_response id0 r c))
                          = map (entry_write id0 t) (stored c))).
Proof.
  destruct (terminal_of r) as [t|] eqn:Ht.
  - rewrite (fold_response_terminal Sim id0 r t Ht), write_is_rewrite.
    destruct (rewrite_with_outcome Sim (map (entry_write id0 t)) c)
      as [_ [_ [[Hr Hs] | [Hr Hs]]]].
    + right. split; [exact Hr|]. right. now exists t.
    + left. now exists Js.StorageFailure.
  - unfold terminal_of in Ht. unfold fold_response.
    destruct (Models.type r); try discriminate.
    + destruct (Models.simulation r); [discriminate|].
      left. now exists (Js.Error "Invalid state").
    + right. split; [reflexivity|]. now left.
Qed.

(** X10.  Whatever storage calls fail and whatever the backend answers, a
    [fetchSimulationAndUpdate] that throws has written no terminal state:
    the stored sequence is the one before, or the one before followed by the
    [Simulating] entry of the request. *)
Theorem failed_dispatch_writes_no_terminal_state
        (args : Request.RequestArgs) (backend : Outcome (Models.Response Sim))
        (c : Chrome) (e : Js.Exn) :
  fst (fetchSimulationAndUpdate args backend c) = Thrown e ->
  stored (snd (fetchSimulationAndUpdate args backend c)) = stored c
  \/ stored (snd (fetchSimulationAndUpdate args backend c))
     = (stored c ++ [entry_of args])%list.
Proof.
  rewrite fetchSimulationAndUpdate_unfold, snd_bind, fst_bind.
  destruct (add_and_fetch_outcome (entry_of args) backend c) as [[Hr Hs] | [Hr Hs]];
    rewrite Hr.
  - destruct backend as [r|err].
    + intros Hthrown.
      destruct (fold_response_outcome
                  (Request.id args) r (snd (add_and_fetch (entry_of args) (Returned r) c)))
        as [[e' [_ Hs']] | [Hret _]].
      * right. now rewrite Hs'.
      * rewrite Hret in Hthrown. discriminate.
    + intros _. now right.
  - intros _. now left.
Qed.

(** X11.  With the storage calls succeeding, [fetchSimulationAndUpdate]
    adds one entry and removes none, whatever the backend answers and
    whether it returns or throws: the ids stored afterwards are the ids
    stored before, in their order, followed by the id of the request. *)
Theorem dispatch_adds_one_entry
        (args : Request.RequestArgs) (backend : Outcome (Models.Response Sim))
        (c : Chrome) :
  faults c = [] ->
  map id (stored (snd (fetchSimulationAndUpdate args backend c)))
  = (map id (stored c) ++ [Request.id args])%list.
Proof.
  intros H. rewrite fetchSimulationAndUpdate_unfold, snd_bind.
  assert (Hadd : add_and_fetch (entry_of args) backend c =
                 (backend, with_simulations (stored c ++ [entry_of args]) c)).
  { unfold add_and_fetch, Js.bind. now rewrite addSimulation_available. }
  rewrite Hadd. cbn [fst snd].
  destruct backend as [r|err]; [|now rewrite stored_with_simulations, map_app].
  destruct (fold_response_outcome
              (Request.id args) r (with_simulations (stored c ++ [entry_of args]) c))
    as [[e' [_ Hs]] | [_ [Hs | [t [_ Hs]]]]];
    rewrite Hs, stored_with_simulations.
  - now rewrite map_app.
  - now rewrite map_app.
  - rewrite map_map.
    transitivity (map id (stored c ++ [entry_of args])); [|now rewrite map_app].
    apply map_ext. intros x. apply entry_write_id.
Qed.

(** X12.  With the storage calls succeeding and [chrome.action] present,
    what [setSettings] stored is what [getSettings] then returns: the flag
    given.  The icon is the gray one exactly when the flag is set, and the
    stored sequence is not touched. *)
Theorem setSettings_then_getSettings (args : Settings) (c : Chrome) (icon : string) :
  faults c = [] ->
  action c = Some icon ->
  fst (setSettings args c) = Returned tt
  /\ fst (getSettings (snd (setSettings args c))) = Returned args
  /\ action (snd (setSettings args c))
     = Some (if disable args then "icon-32-gray.png" else "icon-32.png")
  /\ simulations (snd (setSettings args c)) = simulations c.
Proof.
  intros H Hicon. destruct args as [flag].
  unfold getSettings, setSettings, get_settings, set_settings, updateIcon, setIcon,
    sync_call, Js.bind, Js.gets, Js.modify.
  rewrite H. cbn. destruct (settings c) as [[old]|]; cbn;
    destruct flag; rewrite Hicon; cbn; rewrite H; cbn; rewrite H; auto.
Qed.

(** X13.  Where [chrome.action] is undefined, as in a content script,
    [setSettings] reads the settings, throws a [TypeError] at the icon
    update and stores nothing: the store is left as it was. *)
Theorem setSettings_without_action_stores_nothing (args : Settings) (c : Chrome) :
  faults c = [] ->
  action c = None ->
  setSettings args c = (Thrown Js.TypeError, c).
Proof.
  intros H Hnone.
  unfold setSettings, get_settings, updateIcon, setIcon,
    sync_call, Js.bind, Js.gets.
  rewrite H. cbn. destruct (disable _); now rewrite Hnone.
Qed.

(** X14.  The code run at load time does nothing at all where
    [chrome.action] is undefined, not even a storage call.  Where it is
    present and the storage call succeeds, it sets the icon after the stored
    flag, the coloured icon when no settings document is stored, and leaves
    both documents as they are. *)
Theorem on_load_sets_icon (c : Chrome) :
  (action c = None -> Startup.on_load c = (Returned tt, c))
  /\ (forall icon,
        action c = Some icon ->
        faults c = [] ->
        fst (Startup.on_load c) = Returned tt
        /\ action (snd (Startup.on_load c))
           = Some (match settings c with
                   | Some {| disable := true |} => "icon-32-gray.png"
                   | _ => "icon-32.png"
                   end)
        /\ simulations (snd (Startup.on_load c)) = simulations c
        /\ settings (snd (Startup.on_load c)) = settings c).
Proof.
  split.
  - intros Hnone. unfold Startup.on_load. now rewrite Hnone.
  - intros icon Hicon H. unfold Startup.on_load. rewrite Hicon.
    unfold getSettings, get_settings, updateIcon, setIcon, sync_call,
      Js.bind, Js.gets.
    rewrite H. cbn.
    destruct (settings c) as [[[]]|] eqn:Hs; cbn; rewrite Hicon; cbn;
      repeat split; exact Hs.
Qed.

End DispatchFacts.

(* ================================================================== *)
(** ** More about the proxy *)

Section MoreProxyFacts.
Import Injected Trace.
Variable Sim : Type.
Variable env : Env Sim.

Local Abbreviation World := (Injected.World Sim).

Ltac split_run :=
  repeat (cbn [fst snd calls chrome];
          match goal with
          | |- context [manager_request ?e ?b ?c] =>
              destruct (manager_request e b c) as [? ?] eqn:?
          | |- context [match ?x with _ => _ end] => destruct x eqn:?
          | |- context [if ?b then _ else _] => destruct b eqn:?
          end).

Ltac close_shape :=
  cbn [fst snd calls chrome events_of submitted ends_forwarded];
  repeat split;
  try discriminate;
  try (rewrite <- ?app_assoc; cbn [app]; rewrite ?app_nil_r; reflexivity);
  try (intros ? [= <-]; match goal with H : manager_request _ _ _ = _ |- _ =>
                                          now rewrite H end);
  try (intros _; eexists; reflexivity).

(** Every run of the wrapper has one of five shapes. *)
Lemma wrapper_shape (prop : string) (args : list Js.Value) (w : World) :
  exists s : Shape,
    calls (snd (wrapper env prop args w)) = (calls w ++ events_of prop args s)%list
    /\ (submitted s = None -> chrome (snd (wrapper env prop args w)) = chrome w)
    /\ (forall body, submitted s = Some body ->
                     chrome (snd (wrapper env prop args w))
                     = snd (manager_request env body (chrome w)))
    /\ (ends_forwarded s = true ->
        fst (wrapper env prop args w) = underlying env prop args)
    /\ (ends_forwarded s = false -> exists e, fst (wrapper env prop args w) = Thrown e).
Proof.
  unfold wrapper, conclude, read, index, originalCall, request_chainId,
    request_manager, is_reject, Js.bind, Js.settle, Js.throw, Js.ret, record.
  split_run;
    first [ exists Silent; solve [close_shape]
          | exists Forwarded; solve [close_shape]
          | exists Queried; solve [close_shape]
          | eexists (Submitted _); solve [close_shape]
          | eexists (SubmittedForwarded _); solve [close_shape] ].
Qed.

Lemma get_member (prop : string) :
  get env prop = Reflected prop \/ get env prop = Wrapper prop.
Proof.
  unfold get. destruct (settings_disable env); [now left|].
  destruct (reserved prop); cbn; auto.
Qed.

(** The same for a call of whatever the proxy hands out. *)
Lemma call_shape (prop : string) (args : list Js.Value) (w : World) :
  exists s : Shape,
    calls (snd (call env (get env prop) args w))
    = (calls w ++ events_of prop args s)%list
    /\ (submitted s = None -> chrome (snd (call env (get env prop) args w)) = chrome w)
    /\ (forall body, submitted s = Some body ->
                     chrome (snd (call env (get env prop) args w))
                     = snd (manager_request env body (chrome w)))
    /\ (ends_forwarded s = true ->
        fst (call env (get env prop) args w) = underlying env prop args)
    /\ (ends_forwarded s = false ->
        exists e, fst (call env (get env prop) args w) = Thrown e).
Proof.
  destruct (get_member prop) as [-> | ->]; cbn [call].
  - exists Forwarded. cbn. repeat split; discriminate.
  - apply wrapper_shape.
Qed.

(** X15.  Whatever the settings, the property, the arguments and the
    collaborators' answers, one call through the proxy calls the provider's
    own member at most once and the request manager at most once.  A call of
    the provider's member is the last thing it does and carries the
    arguments given; a request to the manager comes right after the chain id
    query on the target; and without a request to the manager the store is
    left as it was. *)
Theorem proxy_call_discipline (prop : string) (args : list Js.Value) (w : World) :
  exists events,
    calls (snd (call env (get env prop) args w)) = (calls w ++ events)%list
    /\ forwards events <= 1
    /\ dispatches events <= 1
    /\ (forwards events = 1 ->
        exists before, events = (before ++ [Forward prop args])%list)
    /\ (dispatches events = 1 ->
        exists body rest,
          events = TargetRequest chainId_query :: Dispatch body :: rest)
    /\ (dispatches events = 0 ->
        chrome (snd (call env (get env prop) args w)) = chrome w).
Proof.
  destruct (call_shape prop args w) as [s [Hcalls [Hsame _]]].
  exists (events_of prop args s). split; [exact Hcalls|].
  destruct s as [| | |body|body]; cbn; repeat split; try lia; try discriminate;
    intros _; auto.
  - now exists [].
  - now exists body, [].
  - now exists [TargetRequest chainId_query; Dispatch body].
  - now exists body, [Forward prop args].
Qed.

(** X16.  The proxy never answers in the provider's place: when a call
    through it returns a value, the provider's own member was called with
    the arguments given, as the last thing, and the value is what that call
    returned.  In every other case the call throws. *)
Theorem proxy_returns_only_what_provider_returned
        (prop : string) (args : list Js.Value) (w : World) (v : Js.Value) :
  fst (call env (get env prop) args w) = Returned v ->
  underlying env prop args = Returned v
  /\ exists before,
      calls (snd (call env (get env prop) args w))
      = (calls w ++ before ++ [Forward prop args])%list.
Proof.
  intros Hv.
  destruct (call_shape prop args w) as [s [Hcalls [_ [_ [Hfwd Hthrow]]]]].
  destruct (ends_forwarded s) eqn:Hs.
  - split; [now rewrite <- Hfwd|].
    rewrite Hcalls. destruct s as [| | |body|body]; try discriminate; cbn.
    + now exists [].
    + now exists [TargetRequest chainId_query; Dispatch body].
  - destruct (Hthrow eq_refl) as [e He]. congruence.
Qed.

(** X17.  With the extension disabled, or for a property other than
    [request], [send] and [sendAsync], the proxy hands out the provider's own
    member: a call of it, with any arguments or none, is one call of the
    provider's member; nothing is read off the arguments, the target is not
    queried, the manager is not called and the store is left as it was. *)
Theorem disabled_or_unreserved_reflects
        (prop : string) (args : list Js.Value) (w : World) :
  settings_disable env = true \/ reserved prop = false ->
  get env prop = Reflected prop
  /\ call env (get env prop) args w =
     (underlying env prop args,
      {| calls := calls w ++ [Forward prop args]; chrome := chrome w |}).
Proof.
  intros H.
  assert (Hget : get env prop = Reflected prop).
  { unfold get. destruct H as [-> | ->]; [reflexivity|].
    now destruct (settings_disable env). }
  now rewrite Hget.
Qed.

Lemma wrapper_params (args : list Js.Value) (w : World) (ps : Js.Value)
      (k : Js.Value -> Js.M World Js.Value) :
  Js.get (Js.arg0 args) (Js.KName "params") = Returned ps ->
  Js.bind (read (Js.arg0 args) "params") k w = k ps w.
Proof. intros H. apply bind_returned. now rewrite read_run, H. Qed.

(** The wrapper on a transaction request with one parameter, up to the
    answer of the chain id query. *)
Lemma wrapper_send (prop : string) (args : list Js.Value) (w : World) (tx : Js.Value) :
  Js.get (Js.arg0 args) (Js.KName "method") = Returned (Js.VStr "eth_sendTransaction") ->
  Js.get (Js.arg0 args) (Js.KName "params") = Returned (Js.VArr [tx]) ->
  wrapper env prop args w =
  Js.bind (request_chainId env)
          (fun chainId =>
             Js.bind (request_manager env (Request.Transaction chainId tx))
                     (fun response =>
                        if is_reject response
                        then Js.throw (userRejectedRequest tx_rejected_message)
                        else conclude env prop args response)) w.
Proof.
  intros Hm Hp. unfold wrapper.
  rewrite (wrapper_method Sim _ _ _ _ Hm). cbn -[read index request_chainId request_manager].
  rewrite (wrapper_params _ _ _ _ Hp).
  reflexivity.
Qed.

(** X18.  With interception enabled and a reserved property, a transaction
    request with one parameter that the manager decides [Continue] or
    [Error] goes through: after the chain id query and the request to the
    manager, the provider's own member is called with the arguments given
    and the call settles as it does.  The store is the one the manager
    left. *)
Theorem continued_transaction_forwarded
        (prop : string) (args : list Js.Value) (w : World)
        (tx chainId : Js.Value) (decision : Request.Response)
        (c' : Storage.Chrome Sim) :
  settings_disable env = false ->
  reserved prop = true ->
  Js.get (Js.arg0 args) (Js.KName "method") = Returned (Js.VStr "eth_sendTransaction") ->
  Js.get (Js.arg0 args) (Js.KName "params") = Returned (Js.VArr [tx]) ->
  target_request env chainId_query = Returned chainId ->
  manager_request env (Request.Transaction chainId tx) (chrome w)
  = (Returned decision, c') ->
  decision <> Request.Reject ->
  call env (get env prop) args w =
  (underlying env prop args,
   {| calls := calls w ++ [TargetRequest chainId_query;
                           Dispatch (Request.Transaction chainId tx);
                           Forward prop args];
      chrome := c' |}).
Proof.
  intros Hs Hr Hm Hp Hc Hd Hne.
  rewrite (get_wrapper Sim env prop Hs Hr). cbn [call].
  rewrite (wrapper_send prop args w tx Hm Hp).
  unfold request_chainId, request_manager, conclude, originalCall, record, Js.bind.
  rewrite Hc. cbn [chrome calls]. rewrite Hd.
  destruct decision; [contradiction| |]; cbn; now rewrite <- !app_assoc.
Qed.

(** X19.  With interception enabled and a reserved property, a transaction
    request with one parameter is blocked when the chain id query fails or
    when the request to the manager fails: the call throws what the
    collaborator threw and the provider's own member is not called.  (Only
    the decision [Error] lets the call through.) *)
Theorem failing_collaborator_blocks_transaction
        (prop : string) (args : list Js.Value) (w : World) (tx : Js.Value) (e : Js.Exn) :
  settings_disable env = false ->
  reserved prop = true ->
  Js.get (Js.arg0 args) (Js.KName "method") = Returned (Js.VStr "eth_sendTransaction") ->
  Js.get (Js.arg0 args) (Js.KName "params") = Returned (Js.VArr [tx]) ->
  (target_request env chainId_query = Thrown e ->
   call env (get env prop) args w =
   (Thrown e, {| calls := calls w ++ [TargetRequest chainId_query];
                 chrome := chrome w |}))
  /\ (forall chainId c',
        target_request env chainId_query = Returned chainId ->
        manager_request env (Request.Transaction chainId tx) (chrome w) = (Thrown e, c') ->
        call env (get env prop) args w =
        (Thrown e, {| calls := calls w ++ [TargetRequest chainId_query;
                                           Dispatch (Request.Transaction chainId tx)];
                      chrome := c' |})).
Proof.
  intros Hs Hr Hm Hp.
  rewrite (get_wrapper Sim env prop Hs Hr). cbn [call].
  rewrite (wrapper_send prop args w tx Hm Hp).
  unfold request_chainId, request_manager, record, Js.bind.
  split.
  - intros Hc. now rewrite Hc.
  - intros chainId c' Hc Hd. rewrite Hc. cbn [chrome calls]. rewrite Hd.
    now rewrite <- app_assoc.
Qed.

(** The wrapper on a typed-data request with two parameters, up to the
    answer of the parser. *)
Lemma wrapper_sign (prop : string) (args : list Js.Value) (w : World)
      (method : string) (address typed : Js.Value) :
  method = "eth_signTypedData_v3" \/ method = "eth_signTypedData_v4" ->
  Js.get (Js.arg0 args) (Js.KName "method") = Returned (Js.VStr method) ->
  Js.get (Js.arg0 args) (Js.KName "params") = Returned (Js.VArr [address; typed]) ->
  wrapper env prop args w =
  Js.bind (Js.settle (json_parse env typed))
          (fun params =>
             Js.bind (request_chainId env)
               (fun chainId =>
                  Js.bind (read params "domain")
                    (fun domain =>
                       Js.bind (read params "message")
                         (fun message =>
                            Js.bind (read params "primaryType")
                              (fun primaryType =>
                                 Js.bind
                                   (request_manager
                                      env (Request.Signature chainId domain message
                                                             primaryType))
                                   (fun response =>
                                      if is_reject response
                                      then Js.throw
                                             (userRejectedRequest message_rejected_message)
                                      else conclude env prop args response)))))) w.
Proof.
  intros Hcase Hm Hp. unfold wrapper.
  rewrite (wrapper_method Sim _ _ _ _ Hm).
  destruct Hcase as [-> | ->];
    cbn -[read index request_chainId request_manager];
    rewrite (wrapper_params _ _ _ _ Hp); reflexivity.
Qed.

(** X20.  With interception enabled and a reserved property, a typed-data
    request ([eth_signTypedData_v3] or [_v4]) with two parameters whose
    second parses to an object is submitted with the chain id and the
    [domain], [message] and [primaryType] of that object.  On [Reject] the
    call throws the user-rejected-request error (code 4001) with the message
    'PocketUniverse Message Signature: User denied message signature.' and
    the provider's own member is not called; on [Continue] and [Error] that
    member is called with the arguments given and the call settles as it
    does. *)
Theorem typed_data_request_decided
        (prop : string) (args : list Js.Value) (w : World) (method : string)
        (address typed chainId : Js.Value) (fields : list (string * Js.Value))
        (decision : Request.Response) (c' : Storage.Chrome Sim) :
  settings_disable env = false ->
  reserved prop = true ->
  method = "eth_signTypedData_v3" \/ method = "eth_signTypedData_v4" ->
  Js.get (Js.arg0 args) (Js.KName "method") = Returned (Js.VStr method) ->
  Js.get (Js.arg0 args) (Js.KName "params") = Returned (Js.VArr [address; typed]) ->
  json_parse env typed = Returned (Js.VObj fields) ->
  target_request env chainId_query = Returned chainId ->
  manager_request
    env (Request.Signature chainId (Js.lookup "domain" fields)
                           (Js.lookup "message" fields)
                           (Js.lookup "primaryType" fields)) (chrome w)
  = (Returned decision, c') ->
  let body := Request.Signature chainId (Js.lookup "domain" fields)
                                (Js.lookup "message" fields)
                                (Js.lookup "primaryType" fields) in
  call env (get env prop) args w =
  match decision with
  | Request.Reject =>
      (Thrown (Js.ProviderError 4001
                 "PocketUniverse Message Signature: User denied message signature."),
       {| calls := calls w ++ [TargetRequest chainId_query; Dispatch body];
          chrome := c' |})
  | _ =>
      (underlying env prop args,
       {| calls := calls w ++ [TargetRequest chainId_query; Dispatch body;
                               Forward prop args];
          chrome := c' |})
  end.
Proof.
  intros Hs Hr Hcase Hm Hp Hj Hc Hd body.
  rewrite (get_wrapper Sim env prop Hs Hr). cbn [call].
  rewrite (wrapper_sign prop args w method address typed Hcase Hm Hp).
  unfold request_chainId, request_manager, conclude, originalCall, record, read,
    Js.bind, Js.settle, Js.throw.
  rewrite Hj, Hc. cbn [Js.get Js.key_string chrome calls]. fold body in Hd |- *.
  rewrite Hd.
  destruct decision; cbn; now rewrite <- !app_assoc.
Qed.

(** X21.  With interception enabled and a reserved property, a typed-data
    request with two parameters whose second does not parse is not let
    through: the call throws what [JSON.parse] threw, and neither the
    target, nor the manager, nor the provider's own member is called. *)
Theorem unparsable_typed_data_blocks
        (prop : string) (args : list Js.Value) (w : World) (method : string)
        (address typed : Js.Value) (e : Js.Exn) :
  settings_disable env = false ->
  reserved prop = true ->
  method = "eth_signTypedData_v3" \/ method = "eth_signTypedData_v4" ->
  Js.get (Js.arg0 args) (Js.KName "method") = Returned (Js.VStr method) ->
  Js.get (Js.arg0 args) (Js.KName "params") = Returned (Js.VArr [address; typed]) ->
  json_parse env typed = Thrown e ->
  call env (get env prop) args w = (Thrown e, w).
Proof.
  intros Hs Hr Hcase Hm Hp Hj.
  rewrite (get_wrapper Sim env prop Hs Hr). cbn [call].
  rewrite (wrapper_sign prop args w method address typed Hcase Hm Hp).
  unfold Js.bind, Js.settle. now rewrite Hj.
Qed.

(** X22.  With interception enabled and a reserved property, a request for
    one of the three intercepted methods whose [params] has no readable
    [length] (it is missing, or [null]) is not forwarded: the call throws
    the [TypeError] of that read and nothing is called. *)
Theorem intercepted_method_without_params_throws
        (prop : string) (args : list Js.Value) (w : World) (method : string)
        (params : Js.Value) :
  settings_disable env = false ->
  reserved prop = true ->
  method = "eth_sendTransaction" \/ method = "eth_signTypedData_v3"
  \/ method = "eth_signTypedData_v4" ->
  Js.get (Js.arg0 args) (Js.KName "method") = Returned (Js.VStr method) ->
  Js.get (Js.arg0 args) (Js.KName "params") = Returned params ->
  params = Js.VUndefined \/ params = Js.VNull ->
  call env (get env prop) args w = (Thrown Js.TypeError, w).
Proof.
  intros Hs Hr Hcase Hm Hp Hnone.
  rewrite (get_wrapper Sim env prop Hs Hr). cbn [call]. unfold wrapper.
  rewrite (wrapper_method Sim _ _ _ _ Hm).
  destruct Hcase as [-> | [-> | ->]];
    cbn -[read index request_chainId request_manager];
    rewrite (wrapper_params _ _ _ _ Hp);
    destruct Hnone as [-> | ->]; reflexivity.
Qed.

End MoreProxyFacts.

(* ================================================================== *)
(** ** More about the [window.ethereum] accessors *)

Section MoreBindingFacts.
Import Injected Trace.

(** X23.  While the current provider is not an object (the page has no
    wallet yet, or wrote [undefined]), reading the property throws a
    [TypeError] from the [Proxy] constructor and changes nothing, so that
    every further read throws too; once an object is written, the next read
    returns a wrapper of it. *)
Theorem read_without_provider_throws (b : Binding) (v p : Js.Value) :
  Js.is_object v = false ->
  Js.is_object p = true ->
  ethereum_get (installed v) = (Thrown Js.TypeError, installed v)
  /\ (let b1 := snd (ethereum_set v b) in
      ethereum_get b1 = (Thrown Js.TypeError, b1)
      /\ let b2 := snd (ethereum_get (snd (ethereum_set p b1))) in
         exists n, fst (ethereum_get (snd (ethereum_set p b1))) = Returned (Some n)
                   /\ target_of b2 n = Some p).
Proof.
  intros Hv Hp. split; [now apply ethereum_get_fails|].
  cbn zeta. split; [now apply ethereum_get_fails|].
  cbn [ethereum_set Js.modify snd].
  rewrite ethereum_get_rebuilds by (cbn; auto). cbn [fst snd].
  eexists. split; [reflexivity|]. unfold target_of. cbn [proxies].
  apply target_of_last.
Qed.

Lemma access_builds_lazily (a : Access) (b : Binding) :
  List.length (proxies (access a b)) + (if providerChanged (access a b) then 1 else 0)
  <= List.length (proxies b) + (if providerChanged b then 1 else 0)
     + (if is_set a then 1 else 0).
Proof.
  destruct a as [|p]; cbn [access is_set].
  - destruct (providerChanged b) eqn:H.
    + destruct (Js.is_object (currentProvider b)) eqn:Ho.
      * rewrite (ethereum_get_rebuilds b H Ho). cbn. rewrite length_app. cbn. lia.
      * rewrite (ethereum_get_fails b H Ho). cbn. rewrite H. lia.
    + rewrite (ethereum_get_clean b H). cbn. rewrite H. lia.
  - cbn. destruct (providerChanged b); lia.
Qed.

(** X24.  The wrapper is built lazily: a write of the property builds none,
    and over any history of reads and writes the number of [Proxy] objects
    built is at most one more than the number of writes, however many reads
    there are. *)
Theorem wrappers_built_at_most_once_per_set
        (history : list Access) (ethereum newProvider : Js.Value) :
  List.length (proxies (after history ethereum)) <= S (sets history)
  /\ proxies (snd (ethereum_set newProvider (after history ethereum)))
     = proxies (after history ethereum).
Proof.
  split; [|reflexivity].
  assert (G : forall b,
             List.length (proxies (fold_left (fun b a => access a b) history b))
             + (if providerChanged (fold_left (fun b a => access a b) history b)
                then 1 else 0)
             <= List.length (proxies b) + (if providerChanged b then 1 else 0)
                + sets history).
  { induction history as [|a history IH]; intros b; cbn [fold_left].
    - unfold sets. cbn. lia.
    - specialize (IH (access a b)).
      pose proof (access_builds_lazily a b) as Ha.
      unfold sets in *. cbn [filter]. destruct (is_set a); cbn [List.length]; lia. }
  specialize (G (installed ethereum)). unfold after. cbn in G.
  destruct (providerChanged _); lia.
Qed.

(** X25.  In every state the accessors lead to from the installed one, a
    read that returns never returns [undefined]: it returns a wrapper, and
    that wrapper wraps the provider that is current. *)
Theorem read_returns_wrapper_of_current_provider
        (history : list Access) (ethereum : Js.Value) (r : option nat) :
  let b := after history ethereum in
  fst (ethereum_get b) = Returned r ->
  exists n, r = Some n
            /\ target_of (snd (ethereum_get b)) n = Some (currentProvider b)
            /\ currentProvider (snd (ethereum_get b)) = currentProvider b.
Proof.
  intros b. pose proof (after_cache_built history ethereum) as [_ Hclean].
  fold b in Hclean.
  destruct (providerChanged b) eqn:Hflag.
  - destruct (Js.is_object (currentProvider b)) eqn:Ho.
    + rewrite (ethereum_get_rebuilds b Hflag Ho). cbn [fst snd].
      intros [= <-]. eexists. split; [reflexivity|].
      split; [|reflexivity]. unfold target_of. cbn [proxies]. apply target_of_last.
    + rewrite (ethereum_get_fails b Hflag Ho). discriminate.
  - rewrite (ethereum_get_clean b Hflag). cbn [fst snd].
    destruct (Hclean eq_refl) as [n [Hn Ht]].
    intros [= <-]. now exists n.
Qed.

End MoreBindingFacts.

(* ================================================================== *)
(** ** Further concrete runs *)

Lemma addSimulation_appends_witness :
  Storage.faults Samples.mixed = []
  /\ nth_error
       (Storage.stored
          (snd (Storage.addSimulation (Lifecycle.entry_of Runs.send_args) Samples.mixed)))
       4
     = Some (Lifecycle.entry_of Runs.send_args).
Proof.
  split; [reflexivity|].
  exact (proj1 (proj2 (proj2 (addSimulation_appends_last
                                string (Lifecycle.entry_of Runs.send_args)
                                Samples.mixed eq_refl)))).
Defined.

Lemma removeSimulation_witness :
  Storage.faults Samples.mixed = []
  /\ fst (Storage.removeSimulation "c" Samples.mixed) = Returned tt.
Proof.
  split; [reflexivity|].
  exact (proj1 (removeSimulation_removes_all_of_id string "c" Samples.mixed eq_refl)).
Defined.

Lemma add_then_remove_witness :
  let e := {| Storage.id := "e"; Storage.type := Storage.Signature;
              Storage.state := Storage.Simulating;
              Storage.simulation := None; Storage.error := None |} in
  Storage.faults Samples.mixed = []
  /\ Storage.stored
       (snd (Storage.removeSimulation "e" (snd (Storage.addSimulation e Samples.mixed))))
     = Storage.stored Samples.mixed.
Proof.
  intros e. split; [reflexivity|].
  apply (add_then_remove_restores string e Samples.mixed eq_refl).
  intros x [<- | [<- | [<- | [<- | []]]]]; discriminate.
Defined.

Lemma clearOldSimulations_witness :
  Storage.faults Samples.mixed = []
  /\ fst (Storage.clearOldSimulations Samples.mixed) = Returned tt.
Proof.
  split; [reflexivity|].
  exact (proj1 (clearOldSimulations_keeps_what_needs_action
                  string Samples.mixed eq_refl)).
Defined.

Lemma decision_then_cleanup_witness :
  let x := {| Storage.id := "d"; Storage.type := Storage.Simulation;
              Storage.state := Storage.Simulating;
              Storage.simulation := None; Storage.error := None |} in
  Storage.faults Samples.mixed = []
  /\ In x (Storage.stored
             (snd (Storage.clearOldSimulations
                     (snd (Storage.updateSimulationState
                             "a" Storage.Confirmed Samples.mixed))))).
Proof.
  intros x. split; [reflexivity|].
  apply (decision_then_cleanup_drops_id string "a" true Samples.mixed eq_refl x).
  split; [right; right; right; now left|]. split; [discriminate | reflexivity].
Defined.

Lemma terminal_write_needs_action_witness :
  let x := {| Storage.id := "b"; Storage.type := Storage.Signature;
              Storage.state := Storage.Confirmed;
              Storage.simulation := None; Storage.error := None |} in
  Storage.faults Samples.mixed = []
  /\ In x (Storage.stored Samples.mixed)
  /\ Storage.simulationNeedsAction
       (Storage.state
          (Lifecycle.entry_write "b" (Lifecycle.RevertWith (Some "late")) x))
     = true.
Proof.
  intros x.
  assert (Hx : In x (Storage.stored Samples.mixed)) by (right; now left).
  split; [reflexivity|]. split; [exact Hx|].
  exact (proj1 (terminal_write_needs_action_again
                  string "b" (Lifecycle.RevertWith (Some "late")) Samples.mixed x
                  eq_refl Hx eq_refl)).
Defined.

Lemma updateSimulationState_later_witness :
  Storage.faults Samples.mixed = []
  /\ Storage.updateSimulationState
       "a" Storage.Rejected
       (snd (Storage.updateSimulationState "a" Storage.Confirmed Samples.mixed))
     = Storage.updateSimulationState "a" Storage.Rejected Samples.mixed.
Proof.
  split; [reflexivity|].
  exact (updateSimulationState_later_decides
           string "a" Storage.Confirmed Storage.Rejected Samples.mixed eq_refl).
Defined.

Lemma terminal_writes_commute_witness :
  Storage.faults Samples.mixed = []
  /\ "a" <> "d"
  /\ snd (Lifecycle.write "d" (Lifecycle.Complete "mint")
            (snd (Lifecycle.write "a" (Lifecycle.ErrorWith None) Samples.mixed)))
     = snd (Lifecycle.write "a" (Lifecycle.ErrorWith None)
              (snd (Lifecycle.write "d" (Lifecycle.Complete "mint") Samples.mixed))).
Proof.
  assert (Hne : "a" <> "d") by discriminate.
  split; [reflexivity|]. split; [exact Hne|].
  exact (terminal_writes_of_different_ids_commute
           string "a" "d" (Lifecycle.ErrorWith None) (Lifecycle.Complete "mint")
           Samples.mixed eq_refl Hne).
Defined.

Lemma store_operation_witness :
  Ops.image (Sim:=string) Lifecycle.ClearOld
  = Some (filter (fun x => negb (Storage.needs_removal (Storage.state x))))
  /\ Storage.settings (snd (Lifecycle.run Lifecycle.ClearOld Samples.failing))
     = Storage.settings Samples.failing.
Proof.
  split; [reflexivity|].
  exact (proj1 (store_operation_all_or_nothing
                  string Lifecycle.ClearOld _ Samples.failing eq_refl)).
Defined.

Lemma failed_dispatch_witness :
  fst (Storage.fetchSimulationAndUpdate
         Runs.send_args (Returned Runs.success_without_simulation) Samples.mixed)
  = Thrown (Js.Error "Invalid state")
  /\ (Storage.stored
        (snd (Storage.fetchSimulationAndUpdate
                Runs.send_args (Returned Runs.success_without_simulation) Samples.mixed))
      = Storage.stored Samples.mixed
      \/ Storage.stored
           (snd (Storage.fetchSimulationAndUpdate
                   Runs.send_args (Returned Runs.success_without_simulation)
                   Samples.mixed))
         = (Storage.stored Samples.mixed ++ [Lifecycle.entry_of Runs.send_args])%list).
Proof.
  split; [reflexivity|].
  exact (failed_dispatch_writes_no_terminal_state
           string Runs.send_args (Returned Runs.success_without_simulation)
           Samples.mixed (Js.Error "Invalid state") eq_refl).
Defined.

Lemma dispatch_adds_one_entry_witness :
  Storage.faults Samples.mixed = []
  /\ map Storage.id
       (Storage.stored
          (snd (Storage.fetchSimulationAndUpdate
                  Runs.send_args (Returned Runs.success_response) Samples.mixed)))
     = ["a"; "b"; "c"; "d"; "a"].
Proof.
  split; [reflexivity|].
  exact (dispatch_adds_one_entry
           string Runs.send_args (Returned Runs.success_response) Samples.mixed eq_refl).
Defined.

Lemma setSettings_then_getSettings_witness :
  Storage.faults Samples.mixed = []
  /\ Storage.action Samples.mixed = Some "icon-32-gray.png"
  /\ fst (Storage.getSettings
            (snd (Storage.setSettings {| Storage.disable := false |} Samples.mixed)))
     = Returned {| Storage.disable := false |}.
Proof.
  split; [reflexivity|]. split; [reflexivity|].
  exact (proj1 (proj2 (setSettings_then_getSettings
                         string {| Storage.disable := false |} Samples.mixed
                         "icon-32-gray.png" eq_refl eq_refl))).
Defined.

Lemma setSettings_without_action_witness :
  Storage.faults Samples.content_script = []
  /\ Storage.action Samples.content_script = None
  /\ Storage.setSettings {| Storage.disable := false |} Samples.content_script
     = (Thrown Js.TypeError, Samples.content_script).
Proof.
  split; [reflexivity|]. split; [reflexivity|].
  exact (setSettings_without_action_stores_nothing
           string {| Storage.disable := false |} Samples.content_script
           eq_refl eq_refl).
Defined.

Lemma on_load_witness :
  Storage.action Samples.mixed = Some "icon-32-gray.png"
  /\ Storage.faults Samples.mixed = []
  /\ fst (Startup.on_load Samples.mixed) = Returned tt.
Proof.
  split; [reflexivity|]. split; [reflexivity|].
  exact (proj1 (proj2 (on_load_sets_icon string Samples.mixed)
                  "icon-32-gray.png" eq_refl eq_refl)).
Defined.

Lemma proxy_returns_witness :
  fst (Injected.call Samples.permissive (Injected.get Samples.permissive "request")
         [Samples.send_request] Samples.page)
  = Returned (Js.VStr "0xsigned")
  /\ Injected.underlying Samples.permissive "request" [Samples.send_request]
     = Returned (Js.VStr "0xsigned").
Proof.
  split; [reflexivity|].
  exact (proj1 (proxy_returns_only_what_provider_returned
                  string Samples.permissive "request" [Samples.send_request]
                  Samples.page (Js.VStr "0xsigned") eq_refl)).
Defined.

Lemma disabled_reflects_witness :
  Injected.settings_disable Samples.disabled = true
  /\ Injected.get Samples.disabled "request" = Injected.Reflected "request".
Proof.
  split; [reflexivity|].
  exact (proj1 (disabled_or_unreserved_reflects
                  string Samples.disabled "request" [Samples.send_request]
                  Samples.page (or_introl eq_refl))).
Defined.

Lemma continued_transaction_witness :
  Injected.manager_request Samples.permissive
    (Request.Transaction (Js.VStr "0x1") (Js.VObj [("to", Js.VStr "0xabc")]))
    Samples.mixed
  = (Returned Request.Continue, Samples.mixed)
  /\ fst (Injected.call Samples.permissive (Injected.get Samples.permissive "request")
            [Samples.send_request] Samples.page)
     = Returned (Js.VStr "0xsigned").
Proof.
  split; [reflexivity|].
  now rewrite (continued_transaction_forwarded
                 string Samples.permissive "request" [Samples.send_request]
                 Samples.page (Js.VObj [("to", Js.VStr "0xabc")]) (Js.VStr "0x1")
                 Request.Continue Samples.mixed
                 eq_refl eq_refl eq_refl eq_refl eq_refl eq_refl
                 ltac:(discriminate)).
Defined.

Lemma failing_collaborator_witness :
  Injected.target_request Samples.broken Injected.chainId_query
  = Thrown (Js.Error "disconnected")
  /\ fst (Injected.call Samples.broken (Injected.get Samples.broken "request")
            [Samples.send_request] Samples.page)
     = Thrown (Js.Error "disconnected").
Proof.
  split; [reflexivity|].
  now rewrite (proj1 (failing_collaborator_blocks_transaction
                        string Samples.broken "request" [Samples.send_request]
                        Samples.page (Js.VObj [("to", Js.VStr "0xabc")])
                        (Js.Error "disconnected")
                        eq_refl eq_refl eq_refl eq_refl) eq_refl).
Defined.

Lemma typed_data_request_witness :
  Injected.json_parse Samples.permissive (Js.VStr "typed") = Returned Samples.typed_data
  /\ fst (Injected.call Samples.permissive (Injected.get Samples.permissive "request")
            [Samples.sign_request] Samples.page)
     = Returned (Js.VStr "0xsigned").
Proof.
  split; [reflexivity|].
  now rewrite (typed_data_request_decided
                 string Samples.permissive "request" [Samples.sign_request]
                 Samples.page "eth_signTypedData_v4"
                 (Js.VStr "0xabc") (Js.VStr "typed") (Js.VStr "0x1")
                 [("domain", Js.VObj [("name", Js.VStr "Seaport")]);
                  ("message", Js.VObj [("offerer", Js.VStr "0xabc")]);
                  ("primaryType", Js.VStr "OrderComponents")]
                 Request.Continue Samples.mixed
                 eq_refl eq_refl (or_intror eq_refl) eq_refl eq_refl eq_refl eq_refl
                 eq_refl).
Defined.

Lemma unparsable_typed_data_witness :
  Injected.json_parse Runs.vetoing (Js.VStr "typed") = Thrown Js.SyntaxError
  /\ Injected.call Runs.vetoing (Injected.get Runs.vetoing "send")
       [Samples.sign_request] Samples.page
     = (Thrown Js.SyntaxError, Samples.page).
Proof.
  split; [reflexivity|].
  exact (unparsable_typed_data_blocks
           string Runs.vetoing "send" [Samples.sign_request] Samples.page
           "eth_signTypedData_v4" (Js.VStr "0xabc") (Js.VStr "typed") Js.SyntaxError
           eq_refl eq_refl (or_intror eq_refl) eq_refl eq_refl eq_refl).
Defined.

Lemma intercepted_without_params_witness :
  let args := [Js.VObj [("method", Js.VStr "eth_sendTransaction")]] in
  Js.get (Js.arg0 args) (Js.KName "params") = Returned Js.VUndefined
  /\ Injected.call Samples.permissive (Injected.get Samples.permissive "request")
       args Samples.page
     = (Thrown Js.TypeError, Samples.page).
Proof.
  intros args. split; [reflexivity|].
  exact (intercepted_method_without_params_throws
           string Samples.permissive "request" args Samples.page
           "eth_sendTransaction" Js.VUndefined
           eq_refl eq_refl (or_introl eq_refl) eq_refl eq_refl (or_introl eq_refl)).
Defined.

Lemma read_without_provider_witness :
  Js.is_object Js.VUndefined = false
  /\ Js.is_object (Js.VObj [("isMetaMask", Js.VBool true)]) = true
  /\ Injected.ethereum_get (Injected.installed Js.VUndefined)
     = (Thrown Js.TypeError, Injected.installed Js.VUndefined).
Proof.
  split; [reflexivity|]. split; [reflexivity|].
  exact (proj1 (read_without_provider_throws
                  (Injected.installed Js.VUndefined) Js.VUndefined
                  (Js.VObj [("isMetaMask", Js.VBool true)]) eq_refl eq_refl)).
Defined.

Lemma read_returns_wrapper_witness :
  let metamask := Js.VObj [("isMetaMask", Js.VBool true)] in
  let b := Injected.after [Injected.Get; Injected.Set_ metamask] Js.VUndefined in
  fst (Injected.ethereum_get b) = Returned (Some 0)
  /\ Injected.target_of (snd (Injected.ethereum_get b)) 0 = Some metamask.
Proof.
  intros metamask b. split; [reflexivity|].
  destruct (read_returns_wrapper_of_current_provider
              [Injected.Get; Injected.Set_ metamask] Js.VUndefined (Some 0) eq_refl)
    as [n [Hn [Ht _]]].
  injection Hn as <-. exact Ht.
Defined.
